(** * whisper_subtitles: SRT formatting, configuration and orchestration

    A shallow embedding of the Python package [whisper_subtitles]
    (formatter.py, config.py, generator.py) and the properties of it that
    the specification states.

    Python values are embedded as follows.
    - [int] is [Z]; [bool] is [bool] (and behaves as 0/1 in arithmetic).
    - [float] is an IEEE-754 binary64 number.  Every finite binary64 number
      is an integer multiple of [2^-1074], so a finite float is kept as a
      sign and a magnitude counted in that unit; rounding to nearest, ties
      to even, is written out on these integers.
    - [str] is a [string] holding the UTF-8 encoding of the text.
    - [dict] with string keys is a [gmap string _].
    - an exception is the left summand of a sum type. *)

From Stdlib Require Import ZArith Lia Bool List Ascii String.
From Stdlib Require Import Numbers.DecimalString Numbers.DecimalZ Numbers.DecimalN Numbers.DecimalPos Numbers.DecimalFacts.
From Stdlib Require Import Floats.SpecFloat.
From stdpp Require Import base option list gmap strings fin_maps.

Local Open Scope Z_scope.

(** ** Exceptions and the error monad *)

Inductive exn : Type :=
  | KeyError (key : string)
  | TypeError
  | AttributeError (name : string)
  | ValueError
  | OverflowError
  | ZeroDivisionError
  | FileNotFoundError (message : string)
  | EngineFailure (code : Z)
  | StorageFailure (code : Z).

Definition result (A : Type) : Type := exn + A.

Definition Ok {A : Type} (a : A) : result A := inr a.
Definition Raise {A : Type} (e : exn) : result A := inl e.

Definition rbind {A B : Type} (m : result A) (k : A -> result B) : result B :=
  match m with
  | inl e => inl e
  | inr a => k a
  end.

Declare Scope result_scope.
Delimit Scope result_scope with result.
Notation "x <-? m ; k" := (rbind m (fun x => k))
  (at level 100, m at next level, right associativity) : result_scope.

(** ** IEEE-754 binary64, the C [double] behind Python's [float] *)

Module Float64.

(** Number of units [2^-1074] in 1.0. *)
Definition one_units : Z := 2 ^ 1074.

(** First magnitude (in units) that no longer fits: [2^1024]. *)
Definition overflow_units : Z := 2 ^ 2098.

(** A finite float is [(-1)^neg * mag * 2^-1074]. *)
Inductive float : Type :=
  | Finite (neg : bool) (mag : Z)
  | Infinity (neg : bool)
  | NaN.

(** The spacing of binary64 numbers around a magnitude whose integer part
    (in units) is [fl] is [2 ^ ulp_shift fl] units: 53 significant bits,
    and never finer than one unit (the subnormal range). *)
Definition ulp_shift (fl : Z) : Z := Z.max 0 (Z.log2 fl - 52).




(** Round the exact magnitude [p / q] units ([0 <= p], [0 < q]) to the
    nearest multiple of the spacing, ties to the even multiple. *)
Definition rne (p q : Z) : Z :=
  let sh := ulp_shift (p / q) in
  let d := q * 2 ^ sh in
  let k := p / d in
  let r := p mod d in
  (if 2 * r <? d then k
   else if 2 * r =? d then (if Z.even k then k else k + 1)
   else k + 1) * 2 ^ sh.

Definition round_to_float (neg : bool) (p q : Z) : float :=
  let m := rne p q in
  if m <? overflow_units then Finite neg m else Infinity neg.

(** The exact value of a finite float, in units. *)
Definition signed (neg : bool) (mag : Z) : Z := if neg then - mag else mag.

Definition sign_of (x : float) : bool :=
  match x with
  | Finite s _ | Infinity s => s
  | NaN => false
  end.

Definition fneg (x : float) : float :=
  match x with
  | Finite s m => Finite (negb s) m
  | Infinity s => Infinity (negb s)
  | NaN => NaN
  end.

(** C [x + y]. *)
Definition fadd (x y : float) : float :=
  match x, y with
  | NaN, _ | _, NaN => NaN
  | Infinity sx, Infinity sy => if Bool.eqb sx sy then x else NaN
  | Infinity _, _ => x
  | _, Infinity _ => y
  | Finite sx mx, Finite sy my =>
      let z := signed sx mx + signed sy my in
      if z =? 0 then Finite (sx && sy) 0
      else round_to_float (z <? 0) (Z.abs z) 1
  end.

(** C [x - y]. *)
Definition fsub (x y : float) : float := fadd x (fneg y).

(** C [x * y]. *)
Definition fmul (x y : float) : float :=
  match x, y with
  | NaN, _ | _, NaN => NaN
  | Infinity sx, Infinity sy => Infinity (xorb sx sy)
  | Infinity sx, Finite sy my =>
      if my =? 0 then NaN else Infinity (xorb sx sy)
  | Finite sx mx, Infinity sy =>
      if mx =? 0 then NaN else Infinity (xorb sx sy)
  | Finite sx mx, Finite sy my =>
      round_to_float (xorb sx sy) (mx * my) one_units
  end.

(** C [x / y]. *)
Definition fdiv (x y : float) : float :=
  match x, y with
  | NaN, _ | _, NaN => NaN
  | Infinity _, Infinity _ => NaN
  | Infinity sx, Finite sy _ => Infinity (xorb sx sy)
  | Finite sx _, Infinity sy => Finite (xorb sx sy) 0
  | Finite sx mx, Finite sy my =>
      if my =? 0 then (if mx =? 0 then NaN else Infinity (xorb sx sy))
      else round_to_float (xorb sx sy) (mx * one_units) my
  end.

(** C [fmod(x, y)]: exact, with the sign of [x]. *)
Definition fmod (x y : float) : float :=
  match x, y with
  | NaN, _ | _, NaN => NaN
  | Infinity _, _ => NaN
  | Finite _ _, Infinity _ => x
  | Finite sx mx, Finite _ my =>
      if my =? 0 then NaN else Finite sx (mx mod my)
  end.

(** C [floor(x)]. *)
Definition ffloor (x : float) : float :=
  match x with
  | Finite false m => Finite false (m / one_units * one_units)
  | Finite true m => Finite true (- ((- m) / one_units) * one_units)
  | _ => x
  end.

(** C [copysign(0.0, y)]. *)
Definition zero_with_sign_of (y : float) : float := Finite (sign_of y) 0.

(** C [x < 0], [x > y] and the truth value of [x] ([x != 0]). *)
Definition is_negative (x : float) : bool :=
  match x with
  | Finite s m => s && negb (m =? 0)
  | Infinity s => s
  | NaN => false
  end.

Definition fgt (x y : float) : bool :=
  match x, y with
  | NaN, _ | _, NaN => false
  | Infinity sx, Infinity sy => negb sx && sy
  | Infinity sx, Finite _ _ => negb sx
  | Finite _ _, Infinity sy => sy
  | Finite sx mx, Finite sy my => signed sy my <? signed sx mx
  end.

Definition is_true (x : float) : bool :=
  match x with
  | Finite _ m => negb (m =? 0)
  | _ => true
  end.

Definition is_zero (x : float) : bool := negb (is_true x).

(** The float of an integer (C conversion of a Python [int]): correctly
    rounded; [None] when it overflows. *)
Definition of_Z (z : Z) : option float :=
  match round_to_float (z <? 0) (Z.abs z * one_units) 1 with
  | Finite s m => Some (Finite s m)
  | _ => None
  end.

(** The float [m * 2^e], for writing literals ([0 <= m]). *)
Definition lit (neg : bool) (m e : Z) : float :=
  Finite neg (m * 2 ^ (e + 1074)).

(** The float that the decimal literal [p/q] denotes ([0 <= p],
    [0 < q]): the binary64 number nearest to it. *)
Definition of_ratio (neg : bool) (p q : Z) : float :=
  round_to_float neg (p * one_units) q.

Definition half : float := lit false 1 (-1).
Definition one : float := lit false 1 0.

(** Truncation toward zero of a finite float. *)
Definition trunc (x : float) : result Z :=
  match x with
  | Finite s m => Ok (signed s (m / one_units))
  | Infinity _ => Raise OverflowError
  | NaN => Raise ValueError
  end.

(** [float_rem] of CPython's floatobject.c: Python's [v % w]. *)
Definition float_rem (vx wx : float) : result float :=
  if is_zero wx then Raise ZeroDivisionError
  else
    let mod_ := fmod vx wx in
    Ok (if is_true mod_ then
          if negb (Bool.eqb (is_negative wx) (is_negative mod_))
          then fadd mod_ wx else mod_
        else zero_with_sign_of wx).

(** [float_floor_div] of CPython's floatobject.c: Python's [v // w]. *)
Definition float_floor_div (vx wx : float) : result float :=
  if is_zero wx then Raise ZeroDivisionError
  else
    let mod_ := fmod vx wx in
    let div := fdiv (fsub vx mod_) wx in
    let div :=
      if is_true mod_ && negb (Bool.eqb (is_negative wx) (is_negative mod_))
      then fsub div one else div in
    Ok (if is_true div then
          let floordiv := ffloor div in
          if fgt (fsub div floordiv) half then fadd floordiv one
          else floordiv
        else zero_with_sign_of (fdiv vx wx)).

(** Conversion to the Standard Library's specification floats, to compare
    the arithmetic above with [SFmul], [SFdiv], [SFadd] and [SFsub]. *)
Fixpoint strip_twos (fuel : nat) (m : positive) (e : Z) : positive * Z :=
  match fuel, m with
  | S f, xO m' => strip_twos f m' (e + 1)
  | _, _ => (m, e)
  end.

Definition to_spec (x : float) : spec_float :=
  match x with
  | NaN => S754_nan
  | Infinity s => S754_infinity s
  | Finite s (Zpos m) =>
      let '(m', e') :=
        strip_twos (Z.to_nat (ulp_shift (Zpos m))) m (-1074) in
      S754_finite s m' e'
  | Finite s _ => S754_zero s
  end.

End Float64.

(** ** Python values *)

#[warnings="-register-all"]
Inductive pyval : Type :=
  | PyNone
  | PyBool (b : bool)
  | PyInt (z : Z)
  | PyFloat (x : Float64.float)
  | PyStr (s : string)
  | PyList (items : list pyval).

(** A [dict] with string keys. *)
Abbreviation pydict := (gmap string pyval).

(** [d[key]], raising [KeyError] when the key is absent. *)
Definition getitem (d : pydict) (key : string) : result pyval :=
  match d !! key with
  | Some v => Ok v
  | None => Raise (KeyError key)
  end.

(** [{**d1, **d2}]: the items of [d1], then those of [d2] written over
    them. *)
Definition dict_merge (d1 d2 : pydict) : pydict :=
  map_fold (fun k v acc => <[k:=v]> acc) d1 d2.

(** ** Numbers and the arithmetic operators used by the formatter *)

Module PyNum.
Import Float64.
Local Open Scope result_scope.

Inductive number : Type :=
  | NInt (z : Z)
  | NFloat (x : float).

(** The numeric reading of a value: [bool] is a subclass of [int];
    any other operand makes the arithmetic operators of this module
    raise [TypeError]. *)
Definition as_number (v : pyval) : result number :=
  match v with
  | PyBool b => Ok (NInt (Z.b2z b))
  | PyInt z => Ok (NInt z)
  | PyFloat x => Ok (NFloat x)
  | _ => Raise TypeError
  end.

Definition to_double (n : number) : result float :=
  match n with
  | NFloat x => Ok x
  | NInt z =>
      match of_Z z with
      | Some x => Ok x
      | None => Raise OverflowError
      end
  end.

(** [a // b] *)
Definition floordiv (a b : number) : result number :=
  match a, b with
  | NInt x, NInt y =>
      if y =? 0 then Raise ZeroDivisionError else Ok (NInt (x / y))
  | _, _ =>
      x <-? to_double a; y <-? to_double b;
      r <-? float_floor_div x y; Ok (NFloat r)
  end.

(** [a % b] *)
Definition rem (a b : number) : result number :=
  match a, b with
  | NInt x, NInt y =>
      if y =? 0 then Raise ZeroDivisionError else Ok (NInt (x mod y))
  | _, _ =>
      x <-? to_double a; y <-? to_double b;
      r <-? float_rem x y; Ok (NFloat r)
  end.

(** [a * b] *)
Definition mul (a b : number) : result number :=
  match a, b with
  | NInt x, NInt y => Ok (NInt (x * y))
  | _, _ =>
      x <-? to_double a; y <-? to_double b; Ok (NFloat (fmul x y))
  end.

(** [int(a)] *)
Definition int (a : number) : result Z :=
  match a with
  | NInt z => Ok z
  | NFloat x => trunc x
  end.

End PyNum.

(** ** Strings *)

Module PyStr.
Local Open Scope string_scope.
Local Open Scope Z_scope.

Definition newline : ascii := "010"%char.
Definition nl : string := String newline EmptyString.

(** [str(n)] for a non-negative [n], and [str(z)]. *)
Definition decimal (n : Z) : string :=
  NilEmpty.string_of_uint (N.to_uint (Z.to_N n)).

Definition str_of_int (z : Z) : string :=
  if z <? 0 then String "-"%char (decimal (- z)) else decimal z.

Fixpoint zeros (n : nat) : string :=
  match n with
  | O => EmptyString
  | S n' => String "0"%char (zeros n')
  end.

(** [format(z, "0<width>d")]: sign first, then zeros up to the width. *)
Definition format_0d (width : nat) (z : Z) : string :=
  if z <? 0 then
    let d := decimal (- z) in
    String "-"%char (zeros (width - 1 - String.length d) +:+ d)
  else
    let d := decimal z in
    zeros (width - String.length d) +:+ d.

Fixpoint rev_onto (s acc : string) : string :=
  match s with
  | EmptyString => acc
  | String c r => rev_onto r (String c acc)
  end.

Definition reverse (s : string) : string := rev_onto s EmptyString.

Definition byte (c : ascii) : N := N_of_ascii c.

(** White space as [str.strip()] sees it, in UTF-8: the ASCII ones
    U+0009..U+000D, U+001C..U+0020; then U+0085, U+00A0; then U+1680,
    U+2000..U+200A, U+2028, U+2029, U+202F, U+205F, U+3000. *)
Definition space1 (a : ascii) : bool :=
  let n := byte a in
  ((9 <=? n) && (n <=? 13) || (28 <=? n) && (n <=? 32))%N.

Definition space2 (a b : ascii) : bool :=
  ((byte a =? 194) && ((byte b =? 133) || (byte b =? 160)))%N.

Definition space3 (a b c : ascii) : bool :=
  let x := byte a in let y := byte b in let z := byte c in
  ((x =? 225) && (y =? 154) && (z =? 128)
   || (x =? 226) && (y =? 128)
      && ((128 <=? z) && (z <=? 138) || (z =? 168) || (z =? 169) || (z =? 175))
   || (x =? 226) && (y =? 129) && (z =? 159)
   || (x =? 227) && (y =? 128) && (z =? 128))%N.

(** Drop leading white space; [fwd] tells whether the bytes of a
    character arrive in order or, on a reversed string, last byte
    first. *)
Fixpoint drop_space (fwd : bool) (s : string) : string :=
  match s with
  | EmptyString => EmptyString
  | String a r1 =>
      if space1 a then drop_space fwd r1
      else
        match r1 with
        | String b r2 =>
            if (if fwd then space2 a b else space2 b a)
            then drop_space fwd r2
            else
              match r2 with
              | String c r3 =>
                  if (if fwd then space3 a b c else space3 c b a)
                  then drop_space fwd r3
                  else s
              | EmptyString => s
              end
        | EmptyString => s
        end
  end.

Definition lstrip (s : string) : string := drop_space true s.
Definition rstrip (s : string) : string :=
  reverse (drop_space false (reverse s)).

(** [s.strip()] *)
Definition strip (s : string) : string := rstrip (lstrip s).

(** [s.split('\n')] *)
Fixpoint split_lines (s : string) : list string :=
  match s with
  | EmptyString => [EmptyString]
  | String c r =>
      if Ascii.eqb c newline then EmptyString :: split_lines r
      else
        match split_lines r with
        | h :: t => String c h :: t
        | [] => [String c EmptyString]
        end
  end.

(** [sep.join(parts)] *)
Fixpoint join (sep : string) (parts : list string) : string :=
  match parts with
  | [] => EmptyString
  | [x] => x
  | x :: rest => x +:+ sep +:+ join sep rest
  end.

(** [l[:n]] with Python's reading of a negative bound. *)
Definition slice_to {A : Type} (n : Z) (l : list A) : list A :=
  if 0 <=? n then take (Z.to_nat n) l
  else take (Z.to_nat (Z.of_nat (List.length l) + n)) l.

End PyStr.

(** ** formatter.py *)

Module Formatter.
Import PyStr.
Local Open Scope string_scope.
Local Open Scope Z_scope.
Local Open Scope result_scope.

(** A Whisper segment: a dict with at least 'start', 'end' and 'text'. *)
Abbreviation segment := (gmap string pyval).

(** [format_time(seconds)]; the first operator already raises
    [TypeError] when [seconds] is not a number. *)
Definition format_time (seconds : pyval) : result string :=
  seconds <-? PyNum.as_number seconds;
  hours <-? (q <-? PyNum.floordiv seconds (PyNum.NInt 3600); PyNum.int q);
  minutes <-? (r <-? PyNum.rem seconds (PyNum.NInt 3600);
               q <-? PyNum.floordiv r (PyNum.NInt 60); PyNum.int q);
  secs <-? (r <-? PyNum.rem seconds (PyNum.NInt 60); PyNum.int r);
  millisecs <-? (r <-? PyNum.rem seconds (PyNum.NInt 1);
                 p <-? PyNum.mul r (PyNum.NInt 1000); PyNum.int p);
  Ok (format_0d 2 hours +:+ ":" +:+ format_0d 2 minutes +:+ ":"
      +:+ format_0d 2 secs +:+ "," +:+ format_0d 3 millisecs).

(** [text.strip()] on a value: only a [str] has the method. *)
Definition call_strip (v : pyval) : result string :=
  match v with
  | PyStr s => Ok (strip s)
  | _ => Raise (AttributeError "strip")
  end.

(** [format_segment(index, segment)] *)
Definition format_segment (index : Z) (segment : segment) : result string :=
  start_time <-? (v <-? getitem segment "start"; format_time v);
  end_time <-? (v <-? getitem segment "end"; format_time v);
  text <-? (v <-? getitem segment "text"; call_strip v);
  Ok (str_of_int index +:+ nl +:+ start_time +:+ " --> " +:+ end_time
      +:+ nl +:+ text +:+ nl +:+ nl).

(** The loop of [format_srt]: [srt_content] is the text so far and [i]
    the counter of [enumerate(segments, 1)]. *)
Fixpoint format_srt_loop (srt_content : string) (i : Z)
    (segments : list segment) : result string :=
  match segments with
  | [] => Ok srt_content
  | segment :: rest =>
      block <-? format_segment i segment;
      format_srt_loop (srt_content +:+ block) (i + 1) rest
  end.

(** [format_srt(segments)] *)
Definition format_srt (segments : list segment) : result string :=
  format_srt_loop "" 1 segments.

(** [preview_srt(content, max_lines)] *)
Definition preview_srt (content : string) (max_lines : Z) : string :=
  let lines := split_lines content in
  if Z.of_nat (List.length lines) <=? max_lines then content
  else
    let preview_lines := slice_to max_lines lines in
    let remaining := Z.of_nat (List.length lines) - max_lines in
    join nl preview_lines +:+ nl +:+ nl +:+ "... (" +:+ str_of_int remaining
      +:+ " more lines)".

End Formatter.

(** ** config.py *)

Module Config.
Import Float64.
Local Open Scope string_scope.
Local Open Scope Z_scope.
Local Open Scope result_scope.

(** An instance is its [__dict__]. *)
Abbreviation pyobj := (gmap string pyval).

Definition slovak_prompt : string :=
  "Slovenský text o teológii a kresťanstve.".

(** The fields of the dataclass, in declaration order. *)
Definition field_names : list string :=
  [ "model_size"; "language"; "task"; "word_timestamps"; "temperature";
    "best_of"; "beam_size"; "patience"; "length_penalty";
    "suppress_tokens"; "condition_on_previous_text";
    "compression_ratio_threshold"; "logprob_threshold";
    "no_speech_threshold"; "initial_prompt" ].

Definition is_field (name : string) : bool :=
  bool_decide (name ∈ field_names).

(** The declared defaults. *)
Definition field_defaults : list (string * pyval) :=
  [ ("model_size", PyStr "turbo");
    ("language", PyStr "sk");
    ("task", PyStr "transcribe");
    ("word_timestamps", PyBool true);
    ("temperature", PyFloat (lit false 0 0));
    ("best_of", PyInt 3);
    ("beam_size", PyInt 5);
    ("patience", PyFloat (lit false 1 0));
    ("length_penalty", PyFloat (lit false 1 0));
    ("suppress_tokens", PyList [PyInt (-1)]);
    ("condition_on_previous_text", PyBool false);
    ("compression_ratio_threshold", PyFloat (of_ratio false 24 10));
    ("logprob_threshold", PyFloat (lit true 1 0));
    ("no_speech_threshold", PyFloat (of_ratio false 6 10));
    ("initial_prompt", PyNone) ].

(** Class attributes that back the fields: every default except the one
    built by a [default_factory]. *)
Definition class_defaults : pyobj :=
  delete "suppress_tokens" (list_to_map field_defaults).

(** Attributes that every instance of a plain class has and whose
    assignment goes through a descriptor of the type; no value of
    [pyval] is accepted by any of them. *)
Definition data_descriptors : list string :=
  [ "__class__"; "__dict__"; "__weakref__" ].

Section Attributes.
(** The further names that attribute lookup finds on the type of a
    configuration object rather than in the instance: the methods of
    [WhisperConfig] and what [object] provides in the running
    interpreter. *)
Variable type_attrs : gset string.

(** [hasattr(self, name)] *)
Definition hasattr (self : pyobj) (name : string) : bool :=
  bool_decide (is_Some (self !! name))
  || bool_decide (name ∈ data_descriptors)
  || bool_decide (name ∈ type_attrs).

(** [setattr(self, name, value)] *)
Definition setattr (self : pyobj) (name : string) (value : pyval)
    : result pyobj :=
  if bool_decide (name ∈ data_descriptors) then
    Raise (if String.eqb name "__weakref__" then AttributeError name
           else TypeError)
  else Ok (<[name := value]> self).

(** What one keyword of [update_config] does to the object when the
    assignment is accepted, and what a whole list of them does. *)
Definition assign (self : pyobj) (item : string * pyval) : pyobj :=
  if hasattr self item.1 then <[item.1 := item.2]> self else self.

Definition assign_all (self : pyobj) (items : list (string * pyval))
    : pyobj :=
  fold_left assign items self.
End Attributes.

(** [self.<name>] for a field: the instance, then the class. *)
Definition getattr (self : pyobj) (name : string) : result pyval :=
  match self !! name with
  | Some v => Ok v
  | None =>
      match class_defaults !! name with
      | Some v => Ok v
      | None => Raise (AttributeError name)
      end
  end.

(** An instance as the generated [__init__] leaves it: every field is
    set. *)
Definition has_fields (self : pyobj) : Prop :=
  Forall (fun name => is_Some (self !! name)) field_names.


(** Truth value of a Python value, and [a or b]. *)
Definition truthy (v : pyval) : bool :=
  match v with
  | PyNone => false
  | PyBool b => b
  | PyInt z => negb (z =? 0)
  | PyFloat x => is_true x
  | PyStr s => negb (String.eqb s "")
  | PyList items => negb (Nat.eqb (List.length items) 0)
  end.

Definition py_or (a b : pyval) : pyval := if truthy a then a else b.

(** [__post_init__] *)
Definition post_init (self : pyobj) : pyobj :=
  match self !! "initial_prompt", self !! "language" with
  | Some PyNone, Some (PyStr language) =>
      if String.eqb language "sk"
      then <["initial_prompt" := PyStr slovak_prompt]> self
      else self
  | _, _ => self
  end.

(** [WhisperConfig] called with keyword arguments: the generated [__init__] stores every
    field, given or default, and then runs [__post_init__]. *)
Definition WhisperConfig (kwargs : pyobj) : result pyobj :=
  if bool_decide (map_Forall (fun k _ => k ∈ field_names) kwargs)
  then Ok (post_init (kwargs ∪ list_to_map field_defaults))
  else Raise TypeError.

(** [to_whisper_params] *)
Definition to_whisper_params (self : pyobj) : result pydict :=
  language <-? getattr self "language";
  task <-? getattr self "task";
  word_timestamps <-? getattr self "word_timestamps";
  temperature <-? getattr self "temperature";
  best_of <-? getattr self "best_of";
  beam_size <-? getattr self "beam_size";
  patience <-? getattr self "patience";
  length_penalty <-? getattr self "length_penalty";
  suppress_tokens <-? getattr self "suppress_tokens";
  initial_prompt <-? getattr self "initial_prompt";
  condition_on_previous_text <-? getattr self "condition_on_previous_text";
  compression_ratio_threshold <-? getattr self "compression_ratio_threshold";
  logprob_threshold <-? getattr self "logprob_threshold";
  no_speech_threshold <-? getattr self "no_speech_threshold";
  Ok (list_to_map
        [ ("language", language);
          ("task", task);
          ("word_timestamps", word_timestamps);
          ("temperature", temperature);
          ("best_of", best_of);
          ("beam_size", beam_size);
          ("patience", patience);
          ("length_penalty", length_penalty);
          ("suppress_tokens", suppress_tokens);
          ("initial_prompt", py_or initial_prompt (PyStr ""));
          ("condition_on_previous_text", condition_on_previous_text);
          ("compression_ratio_threshold", compression_ratio_threshold);
          ("logprob_threshold", logprob_threshold);
          ("no_speech_threshold", no_speech_threshold) ]).

(** The module-level presets. *)
Definition new_config (kwargs : list (string * pyval)) : pyobj :=
  match WhisperConfig (list_to_map kwargs) with
  | inr c => c
  | inl _ => ∅
  end.

Definition DEFAULT_CONFIG : pyobj := new_config [].

Definition SLOVAK_CONFIG : pyobj :=
  new_config [ ("language", PyStr "sk"); ("task", PyStr "transcribe");
               ("initial_prompt", PyStr slovak_prompt) ].

Definition TRANSLATE_TO_ENGLISH_CONFIG : pyobj :=
  new_config [ ("language", PyStr "sk"); ("task", PyStr "translate");
               ("initial_prompt", PyStr "") ].

Definition ENGLISH_CONFIG : pyobj :=
  new_config [ ("language", PyStr "en"); ("task", PyStr "transcribe");
               ("initial_prompt", PyStr "") ].

End Config.

(** ** generator.py *)

Module Generator.
Import Config.
Local Open Scope string_scope.
Local Open Scope Z_scope.

(** What Whisper's [transcribe] returns. *)
Record transcription : Type := {
  text : string;
  segments : list Formatter.segment;
  language : string
}.

Section Engine.
(** The transcription engine is an outside collaborator: a loaded
    model is a [handle]; [whisper_load_model] and [model_transcribe]
    give the outcome of [whisper.load_model(name)] and of
    [model.transcribe(path, ...)], and [open_write] that of writing a
    whole file. *)
Variable handle : Type.
Variable whisper_load_model : string -> result handle.
Variable model_transcribe : handle -> string -> pydict -> result transcription.
Variable open_write : string -> string -> result unit.
Variable type_attrs : gset string.

(** Calls that leave the program, in the order they are made. *)
Inductive event : Type :=
  | LoadModel (name : string)
  | Transcribe (model : handle) (path : string) (params : pydict)
  | WriteFile (path : string) (content : string).

(** The fields of a [SubtitleGenerator]; [config] refers to a
    configuration object in the store. *)
Record SubtitleGenerator : Type := {
  model_size : string;
  config : nat;
  model : option handle
}.

(** The generator, the store of configuration objects (shared between
    every generator that holds the same reference), the paths that
    exist on storage and the trace of outside calls. *)
Record state : Type := {
  self : SubtitleGenerator;
  configs : gmap nat pyobj;
  files : gset string;
  calls : list event
}.

(** State and exceptions: a raised exception keeps the state reached. *)
Definition M (A : Type) : Type := state -> result A * state.

Definition ret {A : Type} (a : A) : M A := fun st => (Ok a, st).

Definition bind {A B : Type} (m : M A) (k : A -> M B) : M B :=
  fun st =>
    match m st with
    | (inl e, st') => (inl e, st')
    | (inr a, st') => k a st'
    end.

Definition raise {A : Type} (e : exn) : M A := fun st => (Raise e, st).

Definition lift {A : Type} (r : result A) : M A := fun st => (r, st).

Definition get : M state := fun st => (Ok st, st).

Definition emit (ev : event) : M unit :=
  fun st => (Ok tt, {| self := self st; configs := configs st;
                       files := files st; calls := calls st ++ [ev] |}).

Definition set_model (h : handle) : M unit :=
  fun st =>
    (Ok tt,
     {| self := {| model_size := model_size (self st);
                   config := config (self st);
                   model := Some h |};
        configs := configs st; files := files st; calls := calls st |}).

Definition set_config_object (c : pyobj) : M unit :=
  fun st =>
    (Ok tt,
     {| self := self st;
        configs := <[config (self st) := c]> (configs st);
        files := files st; calls := calls st |}).

Definition add_file (path : string) : M unit :=
  fun st =>
    (Ok tt, {| self := self st; configs := configs st;
               files := {[path]} ∪ files st; calls := calls st |}).

Local Notation "x <- m ;; k" := (bind m (fun x => k))
  (at level 100, m at next level, right associativity).
Local Notation "m ;; k" := (bind m (fun _ => k))
  (at level 100, right associativity).

(** The configuration object held by the generator. *)
Definition config_object : M pyobj :=
  st <- get ;;
  match configs st !! config (self st) with
  | Some c => ret c
  | None => raise (AttributeError "config")
  end.

(** The store at import time: the four presets of config.py. *)
Definition DEFAULT_CONFIG_ref : nat := 0%nat.

Definition initial_configs : gmap nat pyobj :=
  {[ 0%nat := DEFAULT_CONFIG; 1%nat := SLOVAK_CONFIG;
     2%nat := TRANSLATE_TO_ENGLISH_CONFIG; 3%nat := ENGLISH_CONFIG ]}.

(** [SubtitleGenerator(model_size, config)]: a configuration object is
    always true, so [config or DEFAULT_CONFIG] is [config] unless it
    is [None]. *)
Definition init (model_size : string) (config : option nat)
    : SubtitleGenerator :=
  {| model_size := model_size;
     config := default DEFAULT_CONFIG_ref config;
     model := None |}.

(** [load_model] *)
Definition load_model : M unit :=
  st <- get ;;
  match model (self st) with
  | None =>
      emit (LoadModel (model_size (self st))) ;;
      h <- lift (whisper_load_model (model_size (self st))) ;;
      set_model h
  | Some _ => ret tt
  end.

(** The state after the model-acquisition step was tried by a
    generator that had no model. *)
Definition after_load (st : state) : state :=
  {| self :=
       {| model_size := model_size (self st);
          config := config (self st);
          model := match whisper_load_model (model_size (self st)) with
                   | inl _ => None
                   | inr h => Some h
                   end |};
     configs := configs st; files := files st;
     calls := calls st ++ [LoadModel (model_size (self st))] |}.

(** [transcribe(video_path, **kwargs)] *)
Definition transcribe (video_path : string) (kwargs : pydict)
    : M transcription :=
  load_model ;;
  st <- get ;;
  if negb (bool_decide (video_path ∈ files st)) then
    raise (FileNotFoundError ("Video file not found: " +:+ video_path))
  else
    c <- config_object ;;
    exported <- lift (to_whisper_params c) ;;
    let params := dict_merge exported kwargs in
    (* the progress message reads params['language'] *)
    _ <- lift (getitem params "language") ;;
    st <- get ;;
    match model (self st) with
    | None => raise (AttributeError "transcribe")
    | Some h =>
        emit (Transcribe h video_path params) ;;
        lift (model_transcribe h video_path params)
    end.

(** [save_srt(content, output_path)] of formatter.py. *)
Definition save_srt (content output_path : string) : M unit :=
  emit (WriteFile output_path content) ;;
  lift (open_write output_path content) ;;
  add_file output_path.

(** [generate(video_path, output_path, language, translate, **kwargs)] *)
Definition generate (video_path output_path : string)
    (language : option string) (translate : bool) (kwargs : pydict)
    : M string :=
  let kwargs :=
    match language with
    | Some l =>
        if String.eqb l "" then kwargs else <["language" := PyStr l]> kwargs
    | None => kwargs
    end in
  let kwargs :=
    if translate then <["task" := PyStr "translate"]> kwargs else kwargs in
  result <- transcribe video_path kwargs ;;
  srt_content <- lift (Formatter.format_srt (segments result)) ;;
  save_srt srt_content output_path ;;
  ret srt_content.

(** [generate_translated(video_path, output_path, source_language,
    **kwargs)]: a keyword given twice is a [TypeError] of the call. *)
Definition generate_translated (video_path output_path : string)
    (source_language : string) (kwargs : pydict) : M string :=
  if bool_decide (is_Some (kwargs !! "language"))
     || bool_decide (is_Some (kwargs !! "translate"))
  then raise TypeError
  else generate video_path output_path (Some source_language) true kwargs.

(** The loop of [update_config] over [kwargs.items()]. *)
Fixpoint update_config_loop (items : list (string * pyval)) : M unit :=
  match items with
  | [] => ret tt
  | (key, value) :: rest =>
      c <- config_object ;;
      (if hasattr type_attrs c key then
         c' <- lift (setattr c key value) ;;
         set_config_object c'
       else ret tt) ;;
      update_config_loop rest
  end.

(** [update_config] called with keywords; the keyword arguments arrive as the
    items of a dict, in the order written. *)
Definition update_config (kwargs : list (string * pyval)) : M unit :=
  update_config_loop kwargs.

(** One call of a method from outside. *)
Inductive call : Type :=
  | CallLoadModel
  | CallTranscribe (video_path : string) (kwargs : pydict)
  | CallGenerate (video_path output_path : string)
      (language : option string) (translate : bool) (kwargs : pydict)
  | CallGenerateTranslated (video_path output_path : string)
      (source_language : string) (kwargs : pydict)
  | CallUpdateConfig (kwargs : list (string * pyval)).

Definition run_call (c : call) (st : state) : state :=
  match c with
  | CallLoadModel => snd (load_model st)
  | CallTranscribe p kw => snd (transcribe p kw st)
  | CallGenerate p o l t kw => snd (generate p o l t kw st)
  | CallGenerateTranslated p o l kw => snd (generate_translated p o l kw st)
  | CallUpdateConfig kw => snd (update_config kw st)
  end.

Definition run_calls (cs : list call) (st : state) : state :=
  fold_left (fun st c => run_call c st) cs st.

(** How often the model-acquisition step appears in a trace. *)
Definition is_load (ev : event) : bool :=
  match ev with LoadModel _ => true | _ => false end.

Definition is_run (ev : event) : bool :=
  match ev with Transcribe _ _ _ => true | _ => false end.

Definition loads (tr : list event) : nat := List.length (List.filter is_load tr).
Definition runs (tr : list event) : nat := List.length (List.filter is_run tr).

(** A computation that, started with the model [h] loaded, ends with
    [h] still loaded and without a further model-acquisition step. *)
Definition keeps_loaded {A : Type} (h : handle) (m : M A) : Prop :=
  forall st,
    model (self st) = Some h ->
    model (self (snd (m st))) = Some h
    /\ loads (calls (snd (m st))) = loads (calls st).

(** The state with another configuration object behind the held
    reference. *)
Definition with_config_object (st : state) (c : pyobj) : state :=
  {| self := self st;
     configs := <[config (self st) := c]> (configs st);
     files := files st; calls := calls st |}.

End Engine.

Arguments LoadModel {handle}.
Arguments Transcribe {handle}.
Arguments WriteFile {handle}.
Arguments model_size {handle}.
Arguments config {handle}.
Arguments model {handle}.
Arguments self {handle}.
Arguments configs {handle}.
Arguments files {handle}.
Arguments calls {handle}.
Arguments ret {handle A}.
Arguments bind {handle A B}.
Arguments raise {handle A}.
Arguments lift {handle A}.
Arguments get {handle}.
Arguments emit {handle}.
Arguments set_model {handle}.
Arguments set_config_object {handle}.
Arguments add_file {handle}.
Arguments config_object {handle}.
Arguments init {handle}.
Arguments load_model {handle}.
Arguments after_load {handle}.
Arguments transcribe {handle}.
Arguments save_srt {handle}.
Arguments generate {handle}.
Arguments generate_translated {handle}.
Arguments update_config_loop {handle}.
Arguments update_config {handle}.
Arguments run_call {handle}.
Arguments run_calls {handle}.
Arguments is_load {handle}.
Arguments is_run {handle}.
Arguments loads {handle}.
Arguments runs {handle}.
Arguments keeps_loaded {handle A}.
Arguments with_config_object {handle}.

End Generator.

(** ** Reading an SRT timestamp back

    The pattern [\d{2,}:\d{2}:\d{2},\d{3}] as a matcher on the whole
    string, and the number of milliseconds that a matching string
    denotes: [((hours * 60 + minutes) * 60 + seconds) * 1000 + millis]. *)

Module SrtTime.
Local Open Scope string_scope.
Local Open Scope Z_scope.

Definition is_digit (c : ascii) : bool :=
  ((48 <=? N_of_ascii c) && (N_of_ascii c <=? 57))%N.

Definition digit_value (c : ascii) : Z := Z.of_N (N_of_ascii c) - 48.


Fixpoint digits_value_from (acc : Z) (s : string) : Z :=
  match s with
  | EmptyString => acc
  | String c r => digits_value_from (10 * acc + digit_value c) r
  end.


Fixpoint all_digits (s : string) : bool :=
  match s with
  | EmptyString => true
  | String c r => is_digit c && all_digits r
  end.










End SrtTime.

(** ** SRT documents as blocks and lines *)

Module SrtText.
Import PyStr.
Local Open Scope string_scope.
Local Open Scope result_scope.

(** The blocks in order, glued together; the first exception wins. *)
Fixpoint concat_results (blocks : list (result string)) : result string :=
  match blocks with
  | [] => Ok ""
  | b :: rest =>
      block <-? b; tail <-? concat_results rest; Ok (block +:+ tail)
  end.

(** The block of every segment, numbered by position plus one. *)
Definition numbered_blocks (segments : list Formatter.segment)
    : list (result string) :=
  imap (fun i seg => Formatter.format_segment (Z.of_nat i + 1) seg) segments.

Fixpoint no_newline (s : string) : bool :=
  match s with
  | EmptyString => true
  | String c r => negb (Ascii.eqb c newline) && no_newline r
  end.

Definition line_count (s : string) : Z :=
  Z.of_nat (List.length (split_lines s)).

(** The last line of a shortened preview. *)
Definition summary_line (omitted : Z) : string :=
  "... (" +:+ str_of_int omitted +:+ " more lines)".

End SrtText.

(** ** Values used in the examples *)

Module Examples.
Import Float64 PyStr.
Local Open Scope string_scope.

(** 65.5, 3661.999, 3661.9999 and 1.2 as Python reads these literals. *)
Definition seconds_65_5 : pyval := PyFloat (of_ratio false 655 10).
Definition seconds_3661_999 : pyval := PyFloat (of_ratio false 3661999 1000).
Definition seconds_3661_9999 : pyval := PyFloat (of_ratio false 36619999 10000).
Definition seconds_1_2 : pyval := PyFloat (of_ratio false 12 10).

(** 0.5609999999999999, the binary64 number [0x1.1f3b645a1cac0p-1]. *)
Definition float_0_5609999999999999 : float :=
  lit false 5053038781909696 (-53).


(** Operands on which the arithmetic of [Float64] is compared with the
    Standard Library's [SpecFloat]: 3661.999, 3600.0, 1000.0, 0.1, 3.0
    and the smallest positive number. *)
Definition float_3661_999 : float := of_ratio false 3661999 1000.
Definition float_3600 : float := lit false 3600 0.
Definition float_1000 : float := lit false 1000 0.
Definition float_0_1 : float := of_ratio false 1 10.
Definition float_3 : float := lit false 3 0.
Definition float_tiny : float := lit false 1 (-1074).

(** The segment [{"start": 0, "end": 1.2, "text": " hi "}]. *)
Definition segment_hi : Formatter.segment :=
  {[ "start" := PyInt 0; "end" := seconds_1_2; "text" := PyStr " hi " ]}.

(** The text ["a\nb\nc"]. *)
Definition three_lines : string := "a" +:+ nl +:+ "b" +:+ nl +:+ "c".

(** [WhisperConfig(language="en")]: no prompt given, and a language
    other than "sk". *)
Definition english_without_prompt : Config.pyobj :=
  Config.new_config [ ("language", PyStr "en") ].

(** A test double of the engine: loading and transcribing always
    succeed, and so does writing a file. *)
Definition stub_load (name : string) : result unit := Ok tt.

Definition stub_result : Generator.transcription :=
  {| Generator.text := ""; Generator.segments := [];
     Generator.language := "sk" |}.

Definition stub_run (h : unit) (path : string) (params : pydict)
    : result Generator.transcription :=
  Ok stub_result.

Definition stub_write (path content : string) : result unit := Ok tt.

(** [SubtitleGenerator()] right after construction, on storage that
    holds no file; and a generator whose model is loaded, on storage
    that holds video.mp4. *)
Definition fresh_state : Generator.state unit :=
  {| Generator.self := Generator.init "turbo" None;
     Generator.configs := Generator.initial_configs;
     Generator.files := ∅;
     Generator.calls := [] |}.

(** Overrides: one key that the export has and one that it has not. *)
Definition overrides : pydict :=
  {[ "language" := PyStr "en"; "verbose" := PyBool true ]}.

(** Keywords for [update_config]: a field and a name that is no
    attribute; and the attribute [__class__] followed by a field. *)
Definition field_and_unknown : list (string * pyval) :=
  [ ("language", PyStr "en"); ("speed", PyInt 2) ].

Definition class_then_field : list (string * pyval) :=
  [ ("__class__", PyInt 5); ("language", PyStr "en") ].

(** Three calls in a row. *)
Definition three_calls : list Generator.call :=
  [ Generator.CallLoadModel;
    Generator.CallTranscribe "video.mp4" ∅;
    Generator.CallUpdateConfig field_and_unknown ].

Definition loaded_state : Generator.state unit :=
  {| Generator.self :=
       {| Generator.model_size := "turbo"; Generator.config := 0%nat;
          Generator.model := Some tt |};
     Generator.configs := Generator.initial_configs;
     Generator.files := {[ "video.mp4" ]};
     Generator.calls := [Generator.LoadModel "turbo"] |}.

End Examples.

(** * The rest of the package and the earlier scripts *)

(** ** Kinds of input to [format_time] *)

Module Seconds.
Import Float64.




End Seconds.

(** ** Segments whose text is one line *)

Module SrtBlocks.
Import PyStr SrtText.
Local Open Scope string_scope.

(** The text of the segment, once trimmed, holds no line break. *)
Definition single_line_text (seg : Formatter.segment) : Prop :=
  forall t, seg !! "text" = Some (PyStr t) -> no_newline (strip t) = true.

(** Every segment of the list formats, each under its own index. *)
Definition all_format (segments : list Formatter.segment) : Prop :=
  forall i seg, segments !! i = Some seg ->
    exists block, Formatter.format_segment (Z.of_nat i + 1) seg = Ok block.

(** A block of four lines, the last one empty: whatever follows it
    starts on a new line. *)
Definition four_lines (block : string) : Prop :=
  exists l1 l2 l3, forall rest,
    split_lines (block +:+ rest) = l1 :: l2 :: l3 :: "" :: split_lines rest.

(** [a] is an initial part of [b]. *)
Definition starts_with (a b : string) : Prop := exists rest, b = a +:+ rest.

End SrtBlocks.

(** ** The rules of the configuration *)

Module ConfigRules.
Import Config.
Local Open Scope string_scope.

(** The keys of the mapping that [to_whisper_params] builds, in the
    order of the dict display. *)
Definition exported_names : list string :=
  [ "language"; "task"; "word_timestamps"; "temperature"; "best_of";
    "beam_size"; "patience"; "length_penalty"; "suppress_tokens";
    "initial_prompt"; "condition_on_previous_text";
    "compression_ratio_threshold"; "logprob_threshold";
    "no_speech_threshold" ].

(** The initial prompt of a new instance, from the keywords ['language']
    and ['initial_prompt'] of the constructor call ([None] for a
    keyword that is not given). *)
Definition resolved_prompt (language prompt : option pyval) : pyval :=
  match default PyNone prompt with
  | PyNone =>
      match default (PyStr "sk") language with
      | PyStr l => if String.eqb l "sk" then PyStr slovak_prompt else PyNone
      | _ => PyNone
      end
  | p => p
  end.

End ConfigRules.

(** ** Traces of the generator *)

Module Traces.
Import Generator.
Local Open Scope string_scope.

(** The keyword mapping that [generate] passes on to [transcribe]:
    ['language'] is set when a language is given and is not empty,
    ['task'] when [translate] is true. *)
Definition passed_keywords (language : option string) (translate : bool)
    (kwargs : pydict) : pydict :=
  let kwargs :=
    match language with
    | Some l =>
        if String.eqb l "" then kwargs else <["language" := PyStr l]> kwargs
    | None => kwargs
    end in
  if translate then <["task" := PyStr "translate"]> kwargs else kwargs.

Section Engine.
Context {handle : Type}.




(** The same storage, configuration objects and trace, with another
    generator as [self]. *)
Definition switch_to (g : SubtitleGenerator handle) (st : state handle)
    : state handle :=
  {| self := g; configs := configs st; files := files st; calls := calls st |}.

End Engine.
End Traces.

(** ** The earlier scripts: subtitle_generator.py and
    generate_whisper_subtitles.py *)

Module Legacy.
Import PyStr.
Local Open Scope string_scope.
Local Open Scope Z_scope.
Local Open Scope result_scope.

(** [format_time(seconds)] of generate_whisper_subtitles.py. *)
Definition format_time (seconds : pyval) : result string :=
  seconds <-? PyNum.as_number seconds;
  hours <-? (q <-? PyNum.floordiv seconds (PyNum.NInt 3600); PyNum.int q);
  minutes <-? (r <-? PyNum.rem seconds (PyNum.NInt 3600);
               q <-? PyNum.floordiv r (PyNum.NInt 60); PyNum.int q);
  secs <-? (r <-? PyNum.rem seconds (PyNum.NInt 60); PyNum.int r);
  millisecs <-? (r <-? PyNum.rem seconds (PyNum.NInt 1);
                 p <-? PyNum.mul r (PyNum.NInt 1000); PyNum.int p);
  Ok (format_0d 2 hours +:+ ":" +:+ format_0d 2 minutes +:+ ":"
      +:+ format_0d 2 secs +:+ "," +:+ format_0d 3 millisecs).

(** [SlovakSubtitleGenerator._format_time(seconds)] of
    subtitle_generator.py. *)
Definition _format_time (seconds : pyval) : result string :=
  seconds <-? PyNum.as_number seconds;
  hours <-? (q <-? PyNum.floordiv seconds (PyNum.NInt 3600); PyNum.int q);
  minutes <-? (r <-? PyNum.rem seconds (PyNum.NInt 3600);
               q <-? PyNum.floordiv r (PyNum.NInt 60); PyNum.int q);
  secs <-? (r <-? PyNum.rem seconds (PyNum.NInt 60); PyNum.int r);
  millisecs <-? (r <-? PyNum.rem seconds (PyNum.NInt 1);
                 p <-? PyNum.mul r (PyNum.NInt 1000); PyNum.int p);
  Ok (format_0d 2 hours +:+ ":" +:+ format_0d 2 minutes +:+ ":"
      +:+ format_0d 2 secs +:+ "," +:+ format_0d 3 millisecs).

(** The loop of [SlovakSubtitleGenerator._format_srt(segments)]: the
    three lines of a block are appended to [srt_content] one after the
    other. *)
Fixpoint _format_srt_loop (srt_content : string) (i : Z)
    (segments : list Formatter.segment) : result string :=
  match segments with
  | [] => Ok srt_content
  | segment :: rest =>
      start_time <-? (v <-? getitem segment "start"; _format_time v);
      end_time <-? (v <-? getitem segment "end"; _format_time v);
      text <-? (v <-? getitem segment "text"; Formatter.call_strip v);
      let srt_content := srt_content +:+ (str_of_int i +:+ nl) in
      let srt_content :=
        srt_content +:+ (start_time +:+ " --> " +:+ end_time +:+ nl) in
      let srt_content := srt_content +:+ (text +:+ nl +:+ nl) in
      _format_srt_loop srt_content (i + 1) rest
  end.

Definition _format_srt (segments : list Formatter.segment) : result string :=
  _format_srt_loop "" 1 segments.

(** The SRT loop inside [generate_subtitles] of
    generate_whisper_subtitles.py, over [result["segments"]]. *)
Fixpoint generate_subtitles_loop (srt_content : string) (i : Z)
    (segments : list Formatter.segment) : result string :=
  match segments with
  | [] => Ok srt_content
  | segment :: rest =>
      start_time <-? (v <-? getitem segment "start"; format_time v);
      end_time <-? (v <-? getitem segment "end"; format_time v);
      text <-? (v <-? getitem segment "text"; Formatter.call_strip v);
      let srt_content := srt_content +:+ (str_of_int i +:+ nl) in
      let srt_content :=
        srt_content +:+ (start_time +:+ " --> " +:+ end_time +:+ nl) in
      let srt_content := srt_content +:+ (text +:+ nl +:+ nl) in
      generate_subtitles_loop srt_content (i + 1) rest
  end.

End Legacy.

(** ** Paths as pathlib keeps them *)

Module PyPath.
Import PyStr.
Local Open Scope string_scope.

Definition slash : ascii := "/"%char.

(** [s.split('/')] *)
Fixpoint split_slash (s : string) : list string :=
  match s with
  | EmptyString => [EmptyString]
  | String c r =>
      if Ascii.eqb c slash then EmptyString :: split_slash r
      else
        match split_slash r with
        | h :: t => String c h :: t
        | [] => [String c EmptyString]
        end
  end.

(** [s.lstrip('/')] *)
Fixpoint lstrip_slash (s : string) : string :=
  match s with
  | String c r => if Ascii.eqb c slash then lstrip_slash r else s
  | EmptyString => EmptyString
  end.

(** A pure POSIX path: the root (empty for a relative path, one slash,
    or two when the text starts with exactly two) and the components
    after it. *)
Record Path : Type := { root : string; parts : list string }.

#[global] Instance Path_eq_dec : EqDecision Path.
Proof. solve_decision. Defined.

Definition parse_root (s : string) : string :=
  match s with
  | String c _ =>
      if Ascii.eqb c slash then
        if Nat.eqb (String.length s - String.length (lstrip_slash s)) 2
        then "//" else "/"
      else ""
  | EmptyString => ""
  end.

(** Empty components and ["."] are dropped; [".."] is kept. *)
Definition keep_part (x : string) : bool :=
  negb (String.eqb x "") && negb (String.eqb x ".").

(** [Path(s)] *)
Definition of_string (s : string) : Path :=
  {| root := parse_root s; parts := List.filter keep_part (split_slash s) |}.

(** [str(p)] *)
Definition to_string (p : Path) : string :=
  match parts p with
  | [] => if String.eqb (root p) "" then "." else root p
  | _ => root p +:+ join "/" (parts p)
  end.

(** [p.is_absolute()] *)
Definition is_absolute (p : Path) : bool := negb (String.eqb (root p) "").

(** [p / s]: an absolute [s] replaces [p]. *)
Definition joinpath (p : Path) (s : string) : Path :=
  let q := of_string s in
  if is_absolute q then q
  else {| root := root p; parts := parts p ++ parts q |}.

(** [p.parent]: a path without components is its own parent. *)
Definition parent (p : Path) : Path :=
  {| root := root p; parts := removelast (parts p) |}.

End PyPath.

(** ** cli.py *)

Module Cli.
Import PyPath Config Generator.
Local Open Scope string_scope.
Local Open Scope Z_scope.

(** What [parse_args] returns. *)
Record Namespace : Type := {
  video : string;
  output : option string;
  model : string;
  language : string;
  translate : bool;
  temperature : Float64.float;
  best_of : Z;
  beam_size : Z;
  initial_prompt : option string;
  condition_on_previous_text : bool;
  compression_ratio_threshold : Float64.float;
  logprob_threshold : Float64.float;
  no_speech_threshold : Float64.float;
  preview : bool;
  quiet : bool
}.

(** [SystemExit], raised by [sys.exit(code)]; it is no [Exception]. *)
Inductive SystemExit : Type := Exit (code : Z).

(** How a run of the command ends: [run_cli] returns (the process then
    ends with status 0), having printed the preview when asked to; or
    the process exits with a status. *)
Inductive outcome : Type :=
  | Returned (shown : option string)
  | Exited (code : Z).

Section Cli.
(** [__file__] of cli.py, and [Path.resolve], which reads the working
    directory and the links on storage. *)
Variable module_file : string.
Variable resolve : Path -> Path.

Context {handle : Type}.
Variable whisper_load_model : string -> result handle.
Variable model_transcribe : handle -> string -> pydict -> result transcription.
Variable open_write : string -> string -> result unit.

(** [p.exists()] on storage that holds the paths [files]. *)
Definition path_exists (files : gset string) (p : Path) : bool :=
  bool_decide (to_string p ∈ files).

Definition project_root : Path :=
  let script_dir := parent (of_string module_file) in
  let whisper_project := parent script_dir in
  let scripts_dir := parent whisper_project in
  parent scripts_dir.

(** [resolve_paths(video_arg, output_arg, translate)] *)
Definition resolve_paths (files : gset string) (video_arg : string)
    (output_arg : option string) (translate : bool)
    : SystemExit + (Path * Path) :=
  let video_path := of_string video_arg in
  let video_found : SystemExit + Path :=
    if negb (is_absolute video_path) then
      let assets_path :=
        joinpath (joinpath (joinpath project_root "public") "assets") video_arg in
      if path_exists files assets_path then inr assets_path
      else if negb (path_exists files video_path) then inl (Exit 1)
      else inr video_path
    else inr video_path in
  match video_found with
  | inl e => inl e
  | inr video_path =>
      let given :=
        match output_arg with
        | Some o => if String.eqb o "" then None else Some o
        | None => None
        end in
      let output_path :=
        match given with
        | Some output_arg =>
            let output_path := of_string output_arg in
            if negb (is_absolute output_path) then
              if negb (bool_decide (parent output_path = of_string "."))
              then resolve output_path
              else joinpath (joinpath project_root "public") output_arg
            else output_path
        | None =>
            if translate
            then joinpath (joinpath project_root "public") "subtitles_en.srt"
            else joinpath (joinpath project_root "public") "subtitles.srt"
        end in
      inr (video_path, output_path)
  end.

(** The keywords of the [WhisperConfig] call in [run_cli]. *)
Definition config_keywords (args : Namespace) : pyobj :=
  list_to_map
    [ ("model_size", PyStr (model args));
      ("language", PyStr (language args));
      ("task", PyStr (if translate args then "translate" else "transcribe"));
      ("temperature", PyFloat (temperature args));
      ("best_of", PyInt (best_of args));
      ("beam_size", PyInt (beam_size args));
      ("initial_prompt",
        match initial_prompt args with Some p => PyStr p | None => PyNone end);
      ("condition_on_previous_text", PyBool (condition_on_previous_text args));
      ("compression_ratio_threshold", PyFloat (compression_ratio_threshold args));
      ("logprob_threshold", PyFloat (logprob_threshold args));
      ("no_speech_threshold", PyFloat (no_speech_threshold args)) ].

(** The state in which the new generator of [run_cli] starts: its
    configuration is a new object in the store. *)
Definition with_new_generator (st : state handle) (size : string) (c : pyobj)
    : state handle :=
  let ref := fresh (dom (configs st)) in
  {| self := init size (Some ref);
     configs := <[ref := c]> (configs st);
     files := files st; calls := calls st |}.

(** [run_cli()], given what [parse_args] returned.  Every [Exception]
    raised inside the [try] ends in [sys.exit(1)]; the [SystemExit] of
    [resolve_paths] passes through. *)
Definition run_cli (args : Namespace) (st : state handle)
    : outcome * state handle :=
  match resolve_paths (files st) (video args) (output args) (translate args) with
  | inl (Exit code) => (Exited code, st)
  | inr (video_path, output_path) =>
      match WhisperConfig (config_keywords args) with
      | inl _ => (Exited 1, st)
      | inr config =>
          let st := with_new_generator st (model args) config in
          match generate whisper_load_model model_transcribe open_write
                  (to_string video_path) (to_string output_path)
                  None (translate args) ∅ st with
          | (inl _, st) => (Exited 1, st)
          | (inr srt_content, st) =>
              (Returned (if preview args
                         then Some (Formatter.preview_srt srt_content 30)
                         else None), st)
          end
      end
  end.

End Cli.
End Cli.

(** ** Further values used in the examples *)

Module Scenarios.
Import Float64 PyStr PyPath Examples.
Local Open Scope string_scope.
Local Open Scope Z_scope.


(** Two segments, and the text that [format_srt] makes of them. *)
Definition two_segments : list Formatter.segment := [segment_hi; segment_hi].

Definition two_blocks : string :=
  "1" +:+ nl +:+ "00:00:00,000 --> 00:00:01,199" +:+ nl +:+ "hi" +:+ nl +:+ nl
  +:+ "2" +:+ nl +:+ "00:00:00,000 --> 00:00:01,199" +:+ nl +:+ "hi" +:+ nl
  +:+ nl.

(** An engine whose model cannot be loaded. *)
Definition failing_load (name : string) : result unit :=
  Raise (EngineFailure 1).

(** Another generator constructed without a configuration. *)
Definition second_generator : Generator.SubtitleGenerator unit :=
  Generator.init "medium" None.

(** The installed cli.py, a stand-in for [Path.resolve] in the working
    directory /work, and storage that holds clip.mp4 there. *)
Definition cli_file : string :=
  "/repo/scripts/whisper-project/whisper_subtitles/cli.py".

Definition resolve_in_work (p : Path) : Path :=
  {| root := "/"; parts := "work" :: parts p |}.

Definition clip_on_storage : Generator.state unit :=
  {| Generator.self := Generator.init "turbo" None;
     Generator.configs := Generator.initial_configs;
     Generator.files := {[ "clip.mp4" ]};
     Generator.calls := [] |}.

(** The command line [clip.mp4 -o out.srt --translate --preview], and
    one that names a video that is nowhere. *)
Definition args_clip : Cli.Namespace :=
  {| Cli.video := "clip.mp4"; Cli.output := Some "out.srt";
     Cli.model := "medium"; Cli.language := "sk"; Cli.translate := true;
     Cli.temperature := lit false 0 0; Cli.best_of := 3; Cli.beam_size := 5;
     Cli.initial_prompt := None; Cli.condition_on_previous_text := false;
     Cli.compression_ratio_threshold := of_ratio false 24 10;
     Cli.logprob_threshold := lit true 1 0;
     Cli.no_speech_threshold := of_ratio false 6 10;
     Cli.preview := true; Cli.quiet := false |}.

Definition args_nowhere : Cli.Namespace :=
  {| Cli.video := "/nowhere/clip.mp4"; Cli.output := None;
     Cli.model := "medium"; Cli.language := "sk"; Cli.translate := false;
     Cli.temperature := lit false 0 0; Cli.best_of := 3; Cli.beam_size := 5;
     Cli.initial_prompt := None; Cli.condition_on_previous_text := false;
     Cli.compression_ratio_threshold := of_ratio false 24 10;
     Cli.logprob_threshold := lit true 1 0;
     Cli.no_speech_threshold := of_ratio false 6 10;
     Cli.preview := false; Cli.quiet := false |}.

End Scenarios.

(** * Properties *)

(** ** Rounding to binary64 *)

Module Float64Facts.
Import Float64.

Lemma ulp_shift_nonneg fl : 0 <= ulp_shift fl.
Proof. unfold ulp_shift. lia. Qed.

Lemma pow2_pos n : 0 <= n -> 0 < 2 ^ n.
Proof. intros; apply Z.pow_pos_nonneg; lia. Qed.













Lemma rne_nonneg p q : 0 <= p -> 0 < q -> 0 <= rne p q.
Proof.
  intros Hp Hq. unfold rne. cbv zeta.
  pose proof (ulp_shift_nonneg (p / q)) as Hs.
  pose proof (pow2_pos _ Hs) as HW.
  assert (0 <= p / (q * 2 ^ ulp_shift (p / q))) by (apply Z.div_pos; nia).
  repeat match goal with |- context [if ?b then _ else _] => destruct b end; nia.
Qed.









Local Opaque one_units overflow_units.










(** On these operands the operations agree with the specification
    floats of the Standard Library at precision 53 and exponent bound
    1024: the literal 3661.999 is the quotient [3661999 / 1000]
    correctly rounded, and products, quotients, sums and differences
    round the same way, into the subnormal range too. *)
Lemma arithmetic_agrees_with_SpecFloat :
  to_spec Examples.float_3661_999
  = SFdiv 53 1024 (to_spec (lit false 3661999 0)) (to_spec Examples.float_1000) /\
  to_spec (fmul Examples.float_0_5609999999999999 Examples.float_1000)
  = SFmul 53 1024 (to_spec Examples.float_0_5609999999999999)
      (to_spec Examples.float_1000) /\
  to_spec (fdiv Examples.float_3661_999 Examples.float_3600)
  = SFdiv 53 1024 (to_spec Examples.float_3661_999) (to_spec Examples.float_3600) /\
  to_spec (fsub Examples.float_3661_999 Examples.float_0_1)
  = SFsub 53 1024 (to_spec Examples.float_3661_999) (to_spec Examples.float_0_1) /\
  to_spec (fadd Examples.float_0_1 (fneg Examples.float_3))
  = SFadd 53 1024 (to_spec Examples.float_0_1) (to_spec (fneg Examples.float_3)) /\
  to_spec (fmul Examples.float_tiny Examples.float_0_1)
  = SFmul 53 1024 (to_spec Examples.float_tiny) (to_spec Examples.float_0_1) /\
  to_spec (fdiv Examples.float_tiny Examples.float_3)
  = SFdiv 53 1024 (to_spec Examples.float_tiny) (to_spec Examples.float_3) /\
  to_spec (fmul Examples.float_0_1 Examples.float_3)
  = SFmul 53 1024 (to_spec Examples.float_0_1) (to_spec Examples.float_3).
Proof.
do 7 (split; [vm_compute; reflexivity|]). vm_compute. reflexivity.
Qed.

End Float64Facts.

(** ** Decimal strings and timestamps *)

Module StringFacts.
Import PyStr SrtTime.
Local Open Scope string_scope.
Local Open Scope Z_scope.
Local Arguments String.append !_ _ / : simpl nomatch.

Lemma append_assoc (a b c : string) : (a +:+ b) +:+ c = a +:+ (b +:+ c).
Proof. induction a as [|x a IH]; simpl; [done | by rewrite IH]. Qed.

Lemma append_nil_r (a : string) : a +:+ "" = a.
Proof. induction a as [|x a IH]; simpl; [done | by rewrite IH]. Qed.



Lemma all_digits_zeros n : all_digits (zeros n) = true.
Proof. induction n; simpl; done. Qed.


Lemma all_digits_uint d : all_digits (NilEmpty.string_of_uint d) = true.
Proof. induction d; simpl; done. Qed.

Lemma uint_nonnil_length d :
  d <> Decimal.Nil -> (1 <= String.length (NilEmpty.string_of_uint d))%nat.
Proof. destruct d; simpl; [done | lia ..]. Qed.

Lemma to_uint_nonnil n : N.to_uint n <> Decimal.Nil.
Proof.
  destruct n as [|p]; [done|]. simpl. apply Unsigned.to_uint_nonnil.
Qed.

Lemma all_digits_decimal n : all_digits (decimal n) = true.
Proof. apply all_digits_uint. Qed.

Lemma length_decimal n : (1 <= String.length (decimal n))%nat.
Proof. apply uint_nonnil_length, to_uint_nonnil. Qed.

Lemma digits_value_from_append acc a b :
  digits_value_from acc (a +:+ b) = digits_value_from (digits_value_from acc a) b.
Proof. revert acc. induction a as [|x a IH]; intros acc; simpl; [done | apply IH]. Qed.











End StringFacts.

(** ** [format_time] *)

Module FormatTimeFacts.
Import Float64 Float64Facts PyStr SrtTime StringFacts Formatter Examples.
Local Open Scope string_scope.
Local Open Scope Z_scope.
Local Opaque one_units overflow_units.









End FormatTimeFacts.

(** ** [format_segment], [format_srt] and [preview_srt] *)

Module FormatterFacts.
Import Float64 PyStr SrtTime SrtText StringFacts Formatter Examples.
Local Open Scope string_scope.
Local Open Scope Z_scope.
Local Arguments String.append !_ _ / : simpl nomatch.

(** C3, as amended.  [format_time(0)] is ["00:00:00,000"],
    [format_time(65.5)] is ["00:01:05,500"] and
    [format_time(3661.9999)] is ["01:01:01,999"]; but
    [format_time(3661.999)] is ["01:01:01,998"], because the binary64
    number that the literal 3661.999 denotes lies just below it and the
    milliseconds are truncated. *)
Theorem format_time_examples :
  format_time (PyInt 0) = Ok "00:00:00,000" /\
  format_time seconds_65_5 = Ok "00:01:05,500" /\
  format_time seconds_3661_999 = Ok "01:01:01,998" /\
  format_time seconds_3661_9999 = Ok "01:01:01,999".
Proof. split; [|split; [|split]]; vm_compute; reflexivity. Qed.

(** C3, counterexample: [format_time(3661.999)] is not
    ["01:01:01,999"]. *)
Lemma format_time_3661_999_counterexample :
  format_time seconds_3661_999 <> Ok "01:01:01,999".
Proof. vm_compute. discriminate. Qed.

(** C4, as amended.  [format_srt] of the single segment
    [{start: 0, end: 1.2, text: " hi "}] is the index line, the range
    line, the trimmed text and a blank line, where the end time reads
    [00:00:01,199]: the seconds 1.2 are a binary64 number just below
    1.2. *)
Theorem format_srt_single_segment :
  format_srt [segment_hi]
  = Ok ("1" +:+ nl +:+ "00:00:00,000 --> 00:00:01,199" +:+ nl +:+ "hi" +:+ nl +:+ nl).
Proof. vm_compute. reflexivity. Qed.

(** C4, counterexample: the text is not the one with [00:00:01,200]. *)
Lemma format_srt_single_segment_counterexample :
  format_srt [segment_hi]
  <> Ok ("1" +:+ nl +:+ "00:00:00,000 --> 00:00:01,200" +:+ nl +:+ "hi" +:+ nl +:+ nl).
Proof. vm_compute. discriminate. Qed.

Lemma format_srt_loop_blocks acc i segments :
  format_srt_loop acc i segments
  = rbind (concat_results
             (imap (fun j seg => format_segment (Z.of_nat j + i) seg) segments))
          (fun tail => Ok (acc +:+ tail)).
Proof.
  revert acc i. induction segments as [|seg rest IH]; intros acc i.
  - cbn. by rewrite append_nil_r.
  - cbn [format_srt_loop imap concat_results].
    replace (Z.of_nat 0 + i) with i by lia.
    destruct (format_segment i seg) as [e|block]; [done|].
    cbn [rbind]. rewrite IH.
    rewrite (imap_ext ((fun j seg => format_segment (Z.of_nat j + i) seg) ∘ S)
               (fun j seg => format_segment (Z.of_nat j + (i + 1)) seg));
      [|intros j x _; cbn; f_equal; lia].
    destruct (concat_results _) as [e|tail]; [done|].
    cbn. by rewrite append_assoc.
Qed.

Lemma imap_compose {A B C} (f : nat -> B -> C) (g : nat -> A -> B) (l : list A) :
  imap f (imap g l) = imap (fun i x => f i (g i x)) l.
Proof.
  revert f g. induction l as [|x l IH]; intros f g; [done|].
  cbn [imap]. f_equal. apply IH.
Qed.

Lemma format_segment_ignores key v index seg :
  key <> "start" -> key <> "end" -> key <> "text" ->
  format_segment index (<[key := v]> seg) = format_segment index seg.
Proof.
  intros H1 H2 H3. unfold format_segment, getitem.
  rewrite !lookup_insert_ne by done. done.
Qed.

(** C5.  [format_srt] returns the blocks [format_segment(i, segment_i)]
    for [i = 1..N] in input order, glued together: the index is the
    position plus one whatever [id] a segment carries, and the empty
    sequence gives the empty string. *)
Theorem format_srt_is_numbered_concatenation (segments : list segment) :
  format_srt segments = concat_results (numbered_blocks segments) /\
  (forall ids : nat -> pyval,
      format_srt (imap (fun i seg => <["id" := ids i]> seg) segments)
      = format_srt segments) /\
  List.length (numbered_blocks segments) = List.length segments /\
  format_srt [] = Ok "".
Proof.
  assert (Hfs : forall segs, format_srt segs = concat_results (numbered_blocks segs)).
  { intros segs. unfold format_srt, numbered_blocks.
    rewrite format_srt_loop_blocks.
    destruct (concat_results _) as [e|t]; done. }
  split; [apply Hfs|]. split; [|split; [|done]].
  - intros ids. rewrite !Hfs. f_equal. unfold numbered_blocks.
    rewrite imap_compose. apply imap_ext. intros i seg _. cbn.
    apply format_segment_ignores; done.
  - unfold numbered_blocks. by rewrite length_imap.
Qed.

Lemma no_newline_append a b :
  no_newline (a +:+ b) = no_newline a && no_newline b.
Proof.
  induction a as [|x a IH]; simpl; [done|].
  rewrite IH. by rewrite andb_assoc.
Qed.

Lemma digit_not_newline c : is_digit c = true -> Ascii.eqb c newline = false.
Proof.
  unfold is_digit. intros H. apply andb_true_iff in H as [H1 _].
  apply N.leb_le in H1. apply Ascii.eqb_neq. intros ->. vm_compute in H1. done.
Qed.

Lemma all_digits_no_newline s : all_digits s = true -> no_newline s = true.
Proof.
  induction s as [|c s IH]; simpl; [done|]. intros H.
  apply andb_true_iff in H as [Hc Hs].
  by rewrite (digit_not_newline c Hc), (IH Hs).
Qed.

Lemma no_newline_str_of_int z : no_newline (str_of_int z) = true.
Proof.
  unfold str_of_int. destruct (z <? 0); simpl;
    apply all_digits_no_newline, all_digits_decimal.
Qed.

Lemma no_newline_summary_line k : no_newline (summary_line k) = true.
Proof.
  unfold summary_line. rewrite !no_newline_append, no_newline_str_of_int. done.
Qed.

Lemma split_lines_no_newline s : no_newline s = true -> split_lines s = [s].
Proof.
  induction s as [|c s IH]; simpl; [done|]. intros H.
  apply andb_true_iff in H as [Hc Hs]. apply negb_true_iff in Hc.
  by rewrite Hc, (IH Hs).
Qed.

Lemma split_lines_append a b :
  no_newline a = true ->
  split_lines (a +:+ String newline b) = a :: split_lines b.
Proof.
  induction a as [|c a IH]; simpl; [done|]. intros H.
  apply andb_true_iff in H as [Hc Ha]. apply negb_true_iff in Hc.
  by rewrite Hc, (IH Ha).
Qed.

Lemma split_lines_newline b :
  split_lines (String newline b) = "" :: split_lines b.
Proof. exact (split_lines_append "" b eq_refl). Qed.

Lemma split_lines_Forall s :
  Forall (fun l => no_newline l = true) (split_lines s).
Proof.
  induction s as [|c s IH]; simpl; [by repeat constructor|].
  destruct (Ascii.eqb c newline) eqn:Hc; [by constructor|].
  destruct (split_lines s) as [|h t]; [by repeat constructor; simpl; rewrite Hc|].
  inversion IH; subst. constructor; [|done]. simpl. by rewrite Hc.
Qed.

Lemma split_lines_nonempty s : split_lines s <> [].
Proof.
  destruct s as [|c s]; simpl; [done|].
  destruct (Ascii.eqb c newline); [done|]. by destruct (split_lines s).
Qed.

(** Joining lines and splitting again gives the lines back. *)
Lemma split_lines_join_append lines rest :
  lines <> [] -> Forall (fun l => no_newline l = true) lines ->
  split_lines (join nl lines +:+ String newline rest) = (lines ++ split_lines rest)%list.
Proof.
  intros Hne Hall. induction Hall as [|l ls Hl Hls IH]; [done|].
  destruct ls as [|l' ls'].
  - simpl. by apply split_lines_append.
  - change (join nl (l :: l' :: ls')) with (l +:+ nl +:+ join nl (l' :: ls')).
    unfold nl at 1. rewrite !append_assoc. cbn [String.append].
    rewrite split_lines_append by done.
    rewrite IH by done. done.
Qed.

(** C6, as amended.  When the text has at most [N] lines,
    [preview_srt] returns it unchanged.  Otherwise, for [0 <= N], it
    returns the first [N] lines joined by line breaks, then two line
    breaks and the summary line that states [total - N] omitted lines:
    the first [N] lines, one blank line and the summary, [N + 2] lines
    in all (three lines when [N] is 0, the first two of them empty). *)
Theorem preview_srt_lines (content : string) (N : Z) :
  let lines := split_lines content in
  let total := line_count content in
  (total <= N -> preview_srt content N = content) /\
  (0 <= N < total ->
     preview_srt content N
     = join nl (take (Z.to_nat N) lines) +:+ nl +:+ nl +:+ summary_line (total - N)
     /\ split_lines (preview_srt content N)
        = ((if N =? 0 then [""] else take (Z.to_nat N) lines)
           ++ [""; summary_line (total - N)])%list
     /\ line_count (preview_srt content N) = Z.max N 1 + 2).
Proof.
  intros lines total. unfold preview_srt. fold lines.
  change (Z.of_nat (List.length lines)) with total.
  split.
  - intros H. replace (total <=? N) with true by (symmetry; apply Z.leb_le; done). done.
  - intros [H0 Hlt].
    replace (total <=? N) with false by (symmetry; apply Z.leb_gt; done).
    unfold slice_to. replace (0 <=? N) with true by (symmetry; apply Z.leb_le; done).
    assert (Heq : join nl (take (Z.to_nat N) lines) +:+ nl +:+ nl +:+ "... ("
                    +:+ str_of_int (total - N) +:+ " more lines)"
                  = join nl (take (Z.to_nat N) lines) +:+ nl +:+ nl
                    +:+ summary_line (total - N)) by done.
    rewrite Heq. split; [done|].
    assert (Hsplit : split_lines (join nl (take (Z.to_nat N) lines) +:+ nl +:+ nl
                                  +:+ summary_line (total - N))
                     = ((if N =? 0 then [""] else take (Z.to_nat N) lines)
                        ++ [""; summary_line (total - N)])%list).
    { destruct (Z.eqb_spec N 0) as [->|HN].
      - change (Z.to_nat 0) with 0%nat. rewrite take_0.
        cbn [join]. unfold nl. cbn [String.append].
        rewrite !split_lines_newline.
        rewrite split_lines_no_newline by apply no_newline_summary_line. done.
      - unfold nl. cbn [String.append].
        rewrite split_lines_join_append.
        + f_equal. rewrite split_lines_newline.
          rewrite split_lines_no_newline by apply no_newline_summary_line. done.
        + pose proof (split_lines_nonempty content) as Hne. fold lines in Hne.
          destruct lines as [|l ls]; [done|].
          destruct (Z.to_nat N) eqn:E; [lia | done].
        + apply Forall_take, split_lines_Forall. }
    split; [exact Hsplit|].
    unfold line_count. rewrite Hsplit, length_app. cbn [List.length].
    destruct (Z.eqb_spec N 0) as [->|HN]; [done|].
    rewrite length_take. unfold total, line_count in Hlt. fold lines in Hlt. lia.
Qed.

(** C6, counterexample.  The preview of ["a\nb\nc"] with one line kept is
    ["a\n\n... (2 more lines)"]: three lines, not [1 + 2 + 1]. *)
Lemma preview_srt_line_count_counterexample :
  preview_srt three_lines 1 = "a" +:+ nl +:+ nl +:+ "... (2 more lines)" /\
  line_count (preview_srt three_lines 1) = 3 /\
  line_count (preview_srt three_lines 1) <> 1 + 2 + 1.
Proof. split; [|split]; vm_compute; [reflexivity | reflexivity | discriminate]. Qed.

(** C6, the amended statement on ["a\nb\nc"] with one line kept. *)
Lemma preview_srt_lines_witness :
  0 <= 1 < line_count three_lines /\
  preview_srt three_lines 1
  = join nl (take (Z.to_nat 1) (split_lines three_lines)) +:+ nl +:+ nl
    +:+ summary_line (line_count three_lines - 1)
  /\ split_lines (preview_srt three_lines 1)
     = ((if 1 =? 0 then [""] else take (Z.to_nat 1) (split_lines three_lines))
        ++ [""; summary_line (line_count three_lines - 1)])%list
  /\ line_count (preview_srt three_lines 1) = Z.max 1 1 + 2.
Proof.
  assert (H : 0 <= 1 < line_count three_lines) by (vm_compute; split; [discriminate | reflexivity]).
  split; [exact H|].
  exact (proj2 (preview_srt_lines three_lines 1) H).
Defined.
End FormatterFacts.

(** ** The configuration *)

Module ConfigFacts.
Import Config Examples.
Local Open Scope string_scope.

Lemma dict_merge_lookup (d1 d2 : pydict) (k : string) :
  dict_merge d1 d2 !! k
  = match d2 !! k with Some v => Some v | None => d1 !! k end.
Proof.
  unfold dict_merge.
  apply (map_fold_weak_ind
           (fun (r : pydict) (m : pydict) =>
              r !! k = match m !! k with Some v => Some v | None => d1 !! k end)).
  - by rewrite lookup_empty.
  - intros i x m r Hi IH.
    destruct (decide (i = k)) as [->|Hne].
    + by rewrite !lookup_insert_eq.
    + by rewrite !lookup_insert_ne.
Qed.

Ltac in_fields := apply (bool_decide_unpack _); vm_compute; exact I.

Lemma has_fields_lookup (c : pyobj) (name : string) :
  has_fields c -> name ∈ field_names -> is_Some (c !! name).
Proof. intros H Hin. unfold has_fields in H. rewrite Forall_forall in H. by apply H. Qed.

Lemma getattr_field (c : pyobj) (name : string) (v : pyval) :
  c !! name = Some v -> getattr c name = Ok v.
Proof. intros H. unfold getattr. by rewrite H. Qed.

(** The export of an instance that has its fields. *)
Lemma to_whisper_params_fields (c : pyobj) :
  has_fields c ->
  exists params prompt,
    to_whisper_params c = Ok params /\
    c !! "initial_prompt" = Some prompt /\
    params !! "initial_prompt" = Some (py_or prompt (PyStr "")) /\
    params !! "language" = c !! "language" /\
    is_Some (params !! "language").
Proof.
  intros H.
  assert (Hf : forall name, name ∈ field_names -> exists v, c !! name = Some v).
  { intros name Hin. destruct (has_fields_lookup c name H Hin) as [v Hv]. eauto. }
  destruct (Hf "language") as [v1 H1]; [in_fields|].
  destruct (Hf "task") as [v2 H2]; [in_fields|].
  destruct (Hf "word_timestamps") as [v3 H3]; [in_fields|].
  destruct (Hf "temperature") as [v4 H4]; [in_fields|].
  destruct (Hf "best_of") as [v5 H5]; [in_fields|].
  destruct (Hf "beam_size") as [v6 H6]; [in_fields|].
  destruct (Hf "patience") as [v7 H7]; [in_fields|].
  destruct (Hf "length_penalty") as [v8 H8]; [in_fields|].
  destruct (Hf "suppress_tokens") as [v9 H9]; [in_fields|].
  destruct (Hf "initial_prompt") as [v10 H10]; [in_fields|].
  destruct (Hf "condition_on_previous_text") as [v11 H11]; [in_fields|].
  destruct (Hf "compression_ratio_threshold") as [v12 H12]; [in_fields|].
  destruct (Hf "logprob_threshold") as [v13 H13]; [in_fields|].
  destruct (Hf "no_speech_threshold") as [v14 H14]; [in_fields|].
  eexists _, v10. split.
  - unfold to_whisper_params.
    rewrite (getattr_field _ _ _ H1), (getattr_field _ _ _ H2),
      (getattr_field _ _ _ H3), (getattr_field _ _ _ H4),
      (getattr_field _ _ _ H5), (getattr_field _ _ _ H6),
      (getattr_field _ _ _ H7), (getattr_field _ _ _ H8),
      (getattr_field _ _ _ H9), (getattr_field _ _ _ H10),
      (getattr_field _ _ _ H11), (getattr_field _ _ _ H12),
      (getattr_field _ _ _ H13), (getattr_field _ _ _ H14).
    cbn [rbind Ok]. reflexivity.
  - split; [exact H10|]. split; [reflexivity|]. rewrite H1. split; [reflexivity | eauto].
Qed.


End ConfigFacts.

(** ** The generator *)

Module GeneratorFacts.
Import Config ConfigFacts Generator Examples.
Local Open Scope string_scope.

Section Engine.
Context {handle : Type}.
Variable whisper_load_model : string -> result handle.
Variable model_transcribe : handle -> string -> pydict -> result transcription.
Variable open_write : string -> string -> result unit.
Variable type_attrs : gset string.

Local Abbreviation load_model := (load_model whisper_load_model).
Local Abbreviation transcribe := (transcribe whisper_load_model model_transcribe).
Local Abbreviation generate :=
  (generate whisper_load_model model_transcribe open_write).
Local Abbreviation generate_translated :=
  (generate_translated whisper_load_model model_transcribe open_write).
Local Abbreviation update_config := (update_config (handle := handle) type_attrs).
Local Abbreviation run_call :=
  (run_call whisper_load_model model_transcribe open_write type_attrs).
Local Abbreviation run_calls :=
  (run_calls whisper_load_model model_transcribe open_write type_attrs).

Implicit Types (st : state handle) (h : handle).

Lemma loads_app (tr1 tr2 : list (event handle)) :
  loads (tr1 ++ tr2) = (loads tr1 + loads tr2)%nat.
Proof. unfold loads. by rewrite List.filter_app, List.length_app. Qed.

Lemma runs_app (tr1 tr2 : list (event handle)) :
  runs (tr1 ++ tr2) = (runs tr1 + runs tr2)%nat.
Proof. unfold runs. by rewrite List.filter_app, List.length_app. Qed.

(** [load_model] with the model loaded does nothing. *)
Lemma load_model_loaded st h :
  model (self st) = Some h -> load_model st = (Ok tt, st).
Proof. intros H. unfold Generator.load_model, bind, get. cbn. by rewrite H. Qed.

Local Abbreviation after_load := (after_load whisper_load_model).

(** [load_model] without a model asks the engine once. *)
Lemma load_model_unloaded st :
  model (self st) = None ->
  load_model st
  = (match whisper_load_model (model_size (self st)) with
     | inl e => inl e
     | inr _ => Ok tt
     end, after_load st).
Proof.
  destruct st as [[size cfg md] objs fs tr]. cbn. intros ->.
  unfold Generator.load_model, Generator.after_load, bind, get, emit, lift, set_model.
  cbn. destruct (whisper_load_model size) as [e|h]; reflexivity.
Qed.

Lemma transcribe_on_missing_path st (video_path : string) (kwargs : pydict) :
  video_path ∉ files st ->
  transcribe video_path kwargs st
  = match model (self st) with
    | Some _ =>
        (Raise (FileNotFoundError ("Video file not found: " +:+ video_path)), st)
    | None =>
        (match whisper_load_model (model_size (self st)) with
         | inl e => Raise e
         | inr _ =>
             Raise (FileNotFoundError ("Video file not found: " +:+ video_path))
         end, after_load st)
    end.
Proof.
  intros Hmissing. unfold Generator.transcribe. unfold bind at 1.
  destruct (model (self st)) as [h|] eqn:Hm.
  - rewrite (load_model_loaded st h Hm).
    unfold bind, get, raise. cbn.
    by rewrite (bool_decide_eq_false_2 _ Hmissing).
  - rewrite (load_model_unloaded st Hm). unfold Generator.after_load.
    destruct (whisper_load_model (model_size (self st))) as [e|h]; [done|].
    unfold bind, get, raise. cbn.
    by rewrite (bool_decide_eq_false_2 _ Hmissing).
Qed.


(** *** Computations that keep the model loaded *)

Lemma keeps_ret {A} h (a : A) : keeps_loaded h (ret a).
Proof. by intros st H. Qed.

Lemma keeps_raise {A} h e : keeps_loaded h (raise (A := A) e).
Proof. by intros st H. Qed.

Lemma keeps_lift {A} h (r : result A) : keeps_loaded h (lift r).
Proof. by intros st H. Qed.

Lemma keeps_get h : keeps_loaded h (get (handle := handle)).
Proof. by intros st H. Qed.

Lemma keeps_emit h ev : is_load ev = false -> keeps_loaded h (emit ev).
Proof.
  intros Hev st H. unfold emit. cbn [snd self calls]. split; [done|].
  rewrite loads_app. unfold loads at 2. cbn [List.filter]. rewrite Hev.
  cbn [List.length]. lia.
Qed.

Lemma keeps_set_config_object h c :
  keeps_loaded h (set_config_object (handle := handle) c).
Proof. by intros st H. Qed.

Lemma keeps_add_file h path : keeps_loaded h (add_file (handle := handle) path).
Proof. by intros st H. Qed.

Lemma keeps_bind {A B} h (m : M handle A) (k : A -> M handle B) :
  keeps_loaded h m -> (forall a, keeps_loaded h (k a)) ->
  keeps_loaded h (bind m k).
Proof.
  intros Hm Hk st H. unfold bind.
  destruct (Hm st H) as [H1 H2].
  destruct (m st) as [[e|a] st1]; cbn in *; [done|].
  destruct (Hk a st1 H1) as [H3 H4]. split; [done | congruence].
Qed.

Lemma bind_run {A B} (m : M handle A) (k : A -> M handle B) st :
  bind m k st
  = match m st with
    | (inl e, st') => (inl e, st')
    | (inr a, st') => k a st'
    end.
Proof. reflexivity. Qed.

Lemma keeps_config_object h : keeps_loaded h (config_object (handle := handle)).
Proof.
  apply keeps_bind; [apply keeps_get|]. intros st.
  destruct (configs st !! config (self st)); [apply keeps_ret | apply keeps_raise].
Qed.

Lemma keeps_load_model h : keeps_loaded h load_model.
Proof. intros st H. by rewrite (load_model_loaded st h H). Qed.

Lemma keeps_transcribe h video_path kwargs :
  keeps_loaded h (transcribe video_path kwargs).
Proof.
  apply keeps_bind; [apply keeps_load_model|]. intros _.
  apply keeps_bind; [apply keeps_get|]. intros st.
  destruct (negb _); [apply keeps_raise|].
  apply keeps_bind; [apply keeps_config_object|]. intros c.
  apply keeps_bind; [apply keeps_lift|]. intros exported.
  apply keeps_bind; [apply keeps_lift|]. intros _.
  apply keeps_bind; [apply keeps_get|]. intros st'.
  destruct (model (self st')); [|apply keeps_raise].
  apply keeps_bind; [by apply keeps_emit|]. intros _. apply keeps_lift.
Qed.

Lemma keeps_save_srt h content output_path :
  keeps_loaded h (save_srt open_write content output_path).
Proof.
  apply keeps_bind; [by apply keeps_emit|]. intros _.
  apply keeps_bind; [apply keeps_lift|]. intros _. apply keeps_add_file.
Qed.

Lemma keeps_generate h video_path output_path language translate kwargs :
  keeps_loaded h (generate video_path output_path language translate kwargs).
Proof.
  apply keeps_bind; [apply keeps_transcribe|]. intros result.
  apply keeps_bind; [apply keeps_lift|]. intros srt.
  apply keeps_bind; [apply keeps_save_srt|]. intros _. apply keeps_ret.
Qed.

Lemma keeps_generate_translated h video_path output_path source kwargs :
  keeps_loaded h (generate_translated video_path output_path source kwargs).
Proof.
  unfold Generator.generate_translated.
  destruct (_ || _); [apply keeps_raise | apply keeps_generate].
Qed.

Lemma keeps_update_config h kwargs : keeps_loaded h (update_config kwargs).
Proof.
  unfold Generator.update_config.
  induction kwargs as [|[key value] rest IH]; [apply keeps_ret|].
  cbn [update_config_loop].
  apply keeps_bind; [apply keeps_config_object|]. intros c.
  apply keeps_bind; [|intros _; apply IH].
  destruct (hasattr type_attrs c key); [|apply keeps_ret].
  apply keeps_bind; [apply keeps_lift|]. intros c'.
  apply keeps_set_config_object.
Qed.

Lemma keeps_run_call h c st :
  model (self st) = Some h ->
  model (self (run_call c st)) = Some h
  /\ loads (calls (run_call c st)) = loads (calls st).
Proof.
  intros H. destruct c; cbn [Generator.run_call].
  - by apply keeps_load_model.
  - by apply keeps_transcribe.
  - by apply keeps_generate.
  - by apply keeps_generate_translated.
  - by apply keeps_update_config.
Qed.

Lemma keeps_run_calls h cs st :
  model (self st) = Some h ->
  model (self (run_calls cs st)) = Some h
  /\ loads (calls (run_calls cs st)) = loads (calls st).
Proof.
  revert st. induction cs as [|c cs IH]; intros st H; [done|].
  cbn [Generator.run_calls fold_left].
  destruct (keeps_run_call h c st H) as [H1 H2].
  destruct (IH _ H1) as [H3 H4]. split; [exact H3|].
  unfold Generator.run_calls in H4. congruence.
Qed.

(** [transcribe] without a model: the acquisition step, then the
    rest with the model loaded or nothing more. *)
Lemma transcribe_unloaded st video_path kwargs :
  model (self st) = None ->
  loads (calls (snd (transcribe video_path kwargs st))) = S (loads (calls st))
  /\ forall h, whisper_load_model (model_size (self st)) = Ok h ->
               model (self (snd (transcribe video_path kwargs st))) = Some h.
Proof.
  intros Hm.
  assert (Hl : loads (calls (after_load st)) = S (loads (calls st))).
  { unfold Generator.after_load. cbn [calls]. rewrite loads_app. cbn. lia. }
  destruct (whisper_load_model (model_size (self st))) as [e|h] eqn:Hload.
  - unfold Generator.transcribe. rewrite bind_run.
    rewrite (load_model_unloaded st Hm), Hload. cbn [snd].
    split; [exact Hl | intros h Hh; discriminate].
  - assert (H1 : model (self (after_load st)) = Some h).
    { unfold Generator.after_load. cbn. by rewrite Hload. }
    destruct (keeps_transcribe h video_path kwargs (after_load st) H1) as [H2 H3].
    unfold Generator.transcribe in H2, H3 |- *.
    rewrite bind_run in H2, H3 |- *.
    rewrite (load_model_loaded (after_load st) h H1) in H2, H3.
    rewrite (load_model_unloaded st Hm), Hload.
    split; [congruence|]. intros h' Hh'. injection Hh' as <-. exact H2.
Qed.

(** C9.  A generator starts without a model.  While it has none, a
    load request or a [transcribe] call invokes the model-acquisition
    step of the engine exactly once, and the model that step returns
    becomes the loaded model.  Once a model is loaded, no sequence of
    method calls invokes the acquisition step again, and the generator
    keeps that same model: it never returns to the unloaded state. *)
Theorem model_lifecycle :
  (forall size cfg, model (init (handle := handle) size cfg) = None) /\
  (forall st,
      model (self st) = None ->
      loads (calls (snd (load_model st))) = S (loads (calls st))
      /\ forall h, whisper_load_model (model_size (self st)) = Ok h ->
                   model (self (snd (load_model st))) = Some h) /\
  (forall st video_path kwargs,
      model (self st) = None ->
      loads (calls (snd (transcribe video_path kwargs st))) = S (loads (calls st))
      /\ forall h, whisper_load_model (model_size (self st)) = Ok h ->
                   model (self (snd (transcribe video_path kwargs st))) = Some h) /\
  (forall st h,
      model (self st) = Some h ->
      load_model st = (Ok tt, st)) /\
  (forall st h cs,
      model (self st) = Some h ->
      model (self (run_calls cs st)) = Some h
      /\ loads (calls (run_calls cs st)) = loads (calls st)).
Proof.
  split; [done|]. split; [|split; [|split]].
  - intros st Hm. rewrite (load_model_unloaded st Hm). cbn [snd].
    unfold Generator.after_load. cbn [calls self model]. rewrite loads_app. cbn.
    split; [lia|]. intros h ->. done.
  - intros st p kw Hm. by apply transcribe_unloaded.
  - intros st h Hm. by apply (load_model_loaded st h).
  - intros st h cs Hm. by apply keeps_run_calls.
Qed.

(** *** The parameters handed to the engine *)

Local Arguments dict_merge : simpl never.
Local Arguments getitem : simpl never.
Local Arguments to_whisper_params : simpl never.

Lemma transcribe_loaded_run st h (c exported : pyobj)
    (video_path : string) (kwargs : pydict) :
  model (self st) = Some h ->
  video_path ∈ files st ->
  configs st !! config (self st) = Some c ->
  to_whisper_params c = Ok exported ->
  is_Some (exported !! "language") ->
  transcribe video_path kwargs st
  = (model_transcribe h video_path (dict_merge exported kwargs),
     {| self := self st; configs := configs st; files := files st;
        calls := calls st
                 ++ [Transcribe h video_path (dict_merge exported kwargs)] |}).
Proof.
  intros Hm Hfile Hc Hexp Hlang.
  unfold Generator.transcribe. rewrite bind_run, (load_model_loaded st h Hm).
  unfold bind, get, raise, config_object, lift, emit, ret. cbn.
  rewrite (bool_decide_eq_true_2 _ Hfile). cbn.
  rewrite Hc. cbn. rewrite Hexp. cbn.
  assert (Hl : is_Some (dict_merge exported kwargs !! "language")).
  { rewrite dict_merge_lookup. destruct (kwargs !! "language"); [eauto | exact Hlang]. }
  destruct Hl as [l Hl]. unfold getitem. rewrite Hl. cbn. rewrite Hm. done.
Qed.

(** The first [transcribe] call goes on as a call on the generator
    with the model that the engine returned. *)
Lemma transcribe_after_load st h (video_path : string) (kwargs : pydict) :
  model (self st) = None ->
  whisper_load_model (model_size (self st)) = Ok h ->
  transcribe video_path kwargs st = transcribe video_path kwargs (after_load st).
Proof.
  intros Hm Hload.
  assert (H1 : model (self (after_load st)) = Some h).
  { unfold Generator.after_load. cbn. by rewrite Hload. }
  unfold Generator.transcribe. rewrite !bind_run.
  rewrite (load_model_unloaded st Hm), Hload.
  rewrite (load_model_loaded (after_load st) h H1). reflexivity.
Qed.

(** C7.  When [transcribe] reaches the engine (the model [h] loaded
    already or acquired by this call, the path on storage, the
    configuration an instance with its fields), the parameters it
    hands over are the exported mapping with the overrides written
    over it: a key present in both takes the override value; an
    override key that the export does not have is kept with its
    override value; an exported key that is not overridden keeps its
    exported value. *)
Theorem transcribe_merges_overrides st h (c : pyobj)
    (video_path : string) (kwargs : pydict) :
  model (self st) = Some h
  \/ (model (self st) = None
      /\ whisper_load_model (model_size (self st)) = Ok h) ->
  video_path ∈ files st ->
  configs st !! config (self st) = Some c ->
  has_fields c ->
  exists exported params,
    to_whisper_params c = Ok exported /\
    params = dict_merge exported kwargs /\
    fst (transcribe video_path kwargs st) = model_transcribe h video_path params /\
    last (calls (snd (transcribe video_path kwargs st)))
    = Some (Transcribe h video_path params) /\
    runs (calls (snd (transcribe video_path kwargs st))) = S (runs (calls st)) /\
    (forall k e v, exported !! k = Some e -> kwargs !! k = Some v ->
                   params !! k = Some v) /\
    (forall k v, exported !! k = None -> kwargs !! k = Some v ->
                 params !! k = Some v) /\
    (forall k e, exported !! k = Some e -> kwargs !! k = None ->
                 params !! k = Some e).
Proof.
  intros Hready Hfile Hc Hf.
  destruct (to_whisper_params_fields c Hf)
    as (exported & prompt & Hexp & _ & _ & _ & Hlang).
  exists exported, (dict_merge exported kwargs).
  split; [exact Hexp|]. split; [reflexivity|].
  assert (Hrun : exists tr,
             transcribe video_path kwargs st
             = (model_transcribe h video_path (dict_merge exported kwargs),
                {| self := self (match model (self st) with
                                 | Some _ => st
                                 | None => after_load st
                                 end);
                   configs := configs st; files := files st;
                   calls := tr ++ [Transcribe h video_path (dict_merge exported kwargs)] |})
             /\ runs tr = runs (calls st)).
  { destruct Hready as [Hm|[Hm Hload]].
    - exists (calls st). rewrite Hm. split; [|done].
      by apply (transcribe_loaded_run st h c exported).
    - exists (calls (after_load st)). rewrite Hm. split.
      + rewrite (transcribe_after_load st h video_path kwargs Hm Hload).
        apply (transcribe_loaded_run (after_load st) h c exported); try done.
        unfold Generator.after_load. cbn. by rewrite Hload.
      + unfold Generator.after_load. cbn [calls]. rewrite runs_app. cbn. lia. }
  destruct Hrun as (tr & Hrun & Htr).
  rewrite Hrun. cbn [fst snd calls].
  split; [done|]. split; [apply last_snoc|].
  split; [rewrite runs_app, Htr; cbn; lia|].
  repeat split; intros; rewrite dict_merge_lookup;
    repeat match goal with H : _ !! _ = _ |- _ => rewrite H end; done.
Qed.

(** *** [update_config] *)

Lemma with_config_object_same st (c : pyobj) :
  configs st !! config (self st) = Some c -> with_config_object st c = st.
Proof.
  intros H. destruct st as [g objs fs tr]. unfold with_config_object. cbn in *.
  f_equal. by apply insert_id.
Qed.

Lemma with_config_object_twice st (c1 c2 : pyobj) :
  with_config_object (with_config_object st c1) c2 = with_config_object st c2.
Proof.
  unfold with_config_object. cbn. f_equal. apply insert_insert_eq.
Qed.

Lemma hasattr_lookup_eq (c1 c2 : pyobj) (k : string) :
  c1 !! k = c2 !! k -> hasattr type_attrs c1 k = hasattr type_attrs c2 k.
Proof. intros H. unfold hasattr. by rewrite H. Qed.

Lemma assign_all_cons (c : pyobj) item items :
  assign_all type_attrs c (item :: items)
  = assign_all type_attrs (assign type_attrs c item) items.
Proof. reflexivity. Qed.

Lemma assign_all_lookup_notin (c : pyobj) items (k : string) :
  k ∉ items.*1 -> assign_all type_attrs c items !! k = c !! k.
Proof.
  revert c. induction items as [|[k0 v0] rest IH]; intros c Hk; [done|].
  cbn in Hk. apply not_elem_of_cons in Hk as [Hne Hk].
  rewrite assign_all_cons.
  rewrite IH by done. unfold assign. cbn.
  destruct (hasattr type_attrs c k0); [|done].
  by rewrite lookup_insert_ne.
Qed.

Lemma assign_all_lookup_in (c : pyobj) items (k : string) (v : pyval) :
  NoDup items.*1 -> (k, v) ∈ items ->
  assign_all type_attrs c items !! k
  = if hasattr type_attrs c k then Some v else c !! k.
Proof.
  revert c. induction items as [|[k0 v0] rest IH]; intros c Hnd Hin.
  { by apply elem_of_nil in Hin. }
  cbn in Hnd. apply NoDup_cons in Hnd as [Hk0 Hnd].
  rewrite assign_all_cons.
  apply elem_of_cons in Hin as [Heq|Hin].
  - injection Heq as <- <-.
    rewrite assign_all_lookup_notin by done. unfold assign. cbn.
    destruct (hasattr type_attrs c k); [by rewrite lookup_insert_eq | done].
  - assert (Hne : k <> k0).
    { intros ->. apply Hk0. apply list_elem_of_fmap. by exists (k0, v). }
    rewrite (IH _ Hnd Hin).
    assert (Hl : assign type_attrs c (k0, v0) !! k = c !! k).
    { unfold assign. cbn. destruct (hasattr type_attrs c k0); [|done].
      by rewrite lookup_insert_ne. }
    by rewrite (hasattr_lookup_eq _ c k Hl), Hl.
Qed.

Lemma update_config_loop_run items st (c : pyobj) :
  configs st !! config (self st) = Some c ->
  (forall k, k ∈ items.*1 -> k ∉ data_descriptors) ->
  update_config_loop type_attrs items st
  = (Ok tt, with_config_object st (assign_all type_attrs c items)).
Proof.
  revert st c. induction items as [|[k v] rest IH]; intros st c Hc Hd.
  { cbn. by rewrite with_config_object_same. }
  cbn [update_config_loop]. rewrite bind_run.
  assert (Hobj : config_object st = (Ok c, st)).
  { unfold config_object, bind, get, ret. cbn. by rewrite Hc. }
  rewrite Hobj. unfold Ok at 1. cbv beta iota. rewrite bind_run.
  rewrite assign_all_cons.
  unfold assign. cbn [fst snd].
  destruct (hasattr type_attrs c k) eqn:Hattr.
  - rewrite bind_run. unfold lift, setattr.
    rewrite bool_decide_eq_false_2 by (apply Hd; cbn; left).
    unfold Ok at 1. cbv beta iota. unfold set_config_object. cbv beta iota.
    change ({| self := self st; configs := <[config (self st) := <[k:=v]> c]> (configs st);
               files := files st; calls := calls st |})
      with (with_config_object st (<[k:=v]> c)).
    rewrite (IH _ (<[k:=v]> c)).
    + by rewrite with_config_object_twice.
    + unfold with_config_object. cbn. by rewrite lookup_insert_eq.
    + intros k' Hk'. apply Hd. cbn. by right.
  - unfold ret. cbv beta iota. apply IH; [done|].
    intros k' Hk'. apply Hd. cbn. by right.
Qed.

(** C10, as amended.  For every call of [update_config] in which no
    keyword names an attribute that rejects assignment ([__class__],
    [__dict__], [__weakref__]): no exception is raised and the held
    configuration object is updated in place; a keyword whose name is
    not an existing attribute is ignored and leaves the configuration
    as it was; a keyword that names a field is assigned; and every
    attribute not named in the call keeps its value. *)
Theorem update_config_assigns_in_place st (c : pyobj)
    (kwargs : list (string * pyval)) :
  configs st !! config (self st) = Some c ->
  has_fields c ->
  NoDup kwargs.*1 ->
  (forall k, k ∈ kwargs.*1 -> k ∉ data_descriptors) ->
  exists c' : pyobj,
    update_config kwargs st = (Ok tt, with_config_object st c') /\
    (forall k v, (k, v) ∈ kwargs -> hasattr type_attrs c k = false ->
                 c' !! k = c !! k) /\
    ((forall k v, (k, v) ∈ kwargs -> hasattr type_attrs c k = false) -> c' = c) /\
    (forall k v, (k, v) ∈ kwargs -> k ∈ field_names -> c' !! k = Some v) /\
    (forall k, k ∉ kwargs.*1 -> c' !! k = c !! k).
Proof.
  intros Hc Hf Hnd Hd. exists (assign_all type_attrs c kwargs).
  split; [by apply update_config_loop_run|].
  assert (Hunknown : forall k v, (k, v) ∈ kwargs -> hasattr type_attrs c k = false ->
                                 assign_all type_attrs c kwargs !! k = c !! k).
  { intros k v Hin Hattr. by rewrite (assign_all_lookup_in c kwargs k v Hnd Hin), Hattr. }
  split; [exact Hunknown|]. split; [|split].
  - intros Hall. apply map_eq. intros k.
    destruct (decide (k ∈ kwargs.*1)) as [Hin|Hnin].
    + apply list_elem_of_fmap in Hin as ([k' v] & -> & Hin). cbn.
      apply (Hunknown k' v Hin). by apply (Hall k' v).
    + by apply assign_all_lookup_notin.
  - intros k v Hin Hfield.
    rewrite (assign_all_lookup_in c kwargs k v Hnd Hin).
    assert (Hattr : hasattr type_attrs c k = true).
    { unfold hasattr. rewrite bool_decide_eq_true_2; [done|].
      by apply has_fields_lookup. }
    by rewrite Hattr.
  - intros k Hk. by apply assign_all_lookup_notin.
Qed.
End Engine.



(** C7 on a loaded generator with the default configuration and the
    overrides [language="en", verbose=True]. *)
Lemma transcribe_merges_overrides_witness :
  (model (self loaded_state) = Some tt
   \/ (model (self loaded_state) = None
       /\ stub_load (model_size (self loaded_state)) = Ok tt)) /\
  ("video.mp4" ∈ files loaded_state) /\
  configs loaded_state !! config (self loaded_state) = Some DEFAULT_CONFIG /\
  has_fields DEFAULT_CONFIG /\
  exists exported params,
    to_whisper_params DEFAULT_CONFIG = Ok exported /\
    params = dict_merge exported overrides /\
    fst (transcribe stub_load stub_run "video.mp4" overrides loaded_state)
    = stub_run tt "video.mp4" params /\
    last (calls (snd (transcribe stub_load stub_run "video.mp4" overrides loaded_state)))
    = Some (Transcribe tt "video.mp4" params) /\
    runs (calls (snd (transcribe stub_load stub_run "video.mp4" overrides loaded_state)))
    = S (runs (calls loaded_state)) /\
    (forall k e v, exported !! k = Some e -> overrides !! k = Some v ->
                   params !! k = Some v) /\
    (forall k v, exported !! k = None -> overrides !! k = Some v ->
                 params !! k = Some v) /\
    (forall k e, exported !! k = Some e -> overrides !! k = None ->
                 params !! k = Some e).
Proof.
  assert (H1 : model (self loaded_state) = Some tt
               \/ (model (self loaded_state) = None
                   /\ stub_load (model_size (self loaded_state)) = Ok tt))
    by (left; reflexivity).
  assert (H2 : "video.mp4" ∈ files loaded_state)
    by (apply (bool_decide_unpack _); vm_compute; exact I).
  assert (H3 : configs loaded_state !! config (self loaded_state) = Some DEFAULT_CONFIG)
    by reflexivity.
  assert (H4 : has_fields DEFAULT_CONFIG)
    by (unfold has_fields; repeat constructor; vm_compute; eauto).
  split; [exact H1|]. split; [exact H2|]. split; [exact H3|]. split; [exact H4|].
  exact (transcribe_merges_overrides stub_load stub_run loaded_state tt
           DEFAULT_CONFIG "video.mp4" overrides H1 H2 H3 H4).
Defined.

(** C9 on a fresh generator and on a loaded one. *)
Lemma model_lifecycle_witness :
  model (self fresh_state) = None /\
  (loads (calls (snd (load_model stub_load fresh_state)))
   = S (loads (calls fresh_state))
   /\ forall h, stub_load (model_size (self fresh_state)) = Ok h ->
                model (self (snd (load_model stub_load fresh_state))) = Some h) /\
  model (self loaded_state) = Some tt /\
  (model (self (run_calls stub_load stub_run stub_write ∅ three_calls loaded_state))
   = Some tt
   /\ loads (calls (run_calls stub_load stub_run stub_write ∅ three_calls loaded_state))
      = loads (calls loaded_state)).
Proof.
  destruct (model_lifecycle stub_load stub_run stub_write ∅)
    as (_ & Hload & _ & _ & Hkeep).
  split; [reflexivity|]. split; [exact (Hload fresh_state eq_refl)|].
  split; [reflexivity|]. exact (Hkeep loaded_state tt three_calls eq_refl).
Defined.

(** C10, counterexample.  [update_config(__class__=5, language="en")]
    raises [TypeError] at the first keyword, so the field named by the
    second keyword is not assigned: the language stays ["sk"]. *)
Lemma update_config_counterexample :
  update_config ∅ class_then_field fresh_state = (Raise TypeError, fresh_state) /\
  configs fresh_state !! config (self fresh_state) = Some DEFAULT_CONFIG /\
  hasattr ∅ DEFAULT_CONFIG "language" = true /\
  DEFAULT_CONFIG !! "language" = Some (PyStr "sk").
Proof. split; [|split; [|split]]; reflexivity. Qed.

(** C10, the amended statement on [update_config(language="en",
    speed=2)]. *)
Lemma update_config_assigns_in_place_witness :
  configs fresh_state !! config (self fresh_state) = Some DEFAULT_CONFIG /\
  has_fields DEFAULT_CONFIG /\
  NoDup field_and_unknown.*1 /\
  (forall k, k ∈ field_and_unknown.*1 -> k ∉ data_descriptors) /\
  exists c' : pyobj,
    update_config ∅ field_and_unknown fresh_state
    = (Ok tt, with_config_object fresh_state c') /\
    (forall k v, (k, v) ∈ field_and_unknown -> hasattr ∅ DEFAULT_CONFIG k = false ->
                 c' !! k = DEFAULT_CONFIG !! k) /\
    ((forall k v, (k, v) ∈ field_and_unknown -> hasattr ∅ DEFAULT_CONFIG k = false) ->
     c' = DEFAULT_CONFIG) /\
    (forall k v, (k, v) ∈ field_and_unknown -> k ∈ field_names -> c' !! k = Some v) /\
    (forall k, k ∉ field_and_unknown.*1 -> c' !! k = DEFAULT_CONFIG !! k).
Proof.
  assert (H1 : configs fresh_state !! config (self fresh_state) = Some DEFAULT_CONFIG)
    by reflexivity.
  assert (H2 : has_fields DEFAULT_CONFIG)
    by (unfold has_fields; repeat constructor; vm_compute; eauto).
  assert (H3 : NoDup field_and_unknown.*1)
    by (apply (bool_decide_unpack _); vm_compute; exact I).
  assert (H4 : forall k, k ∈ field_and_unknown.*1 -> k ∉ data_descriptors).
  { apply (proj1 (Forall_forall _ _)).
    apply (bool_decide_unpack _). vm_compute. exact I. }
  split; [exact H1|]. split; [exact H2|]. split; [exact H3|]. split; [exact H4|].
  exact (update_config_assigns_in_place ∅ fresh_state DEFAULT_CONFIG
           field_and_unknown H1 H2 H3 H4).
Defined.
End GeneratorFacts.

(** * Further properties *)

Module Float64SignFacts.
Import Float64 Float64Facts.
Local Opaque one_units overflow_units.







End Float64SignFacts.

Module FormatTimeEdgeFacts.
Import Float64 Float64Facts Float64SignFacts PyStr SrtTime SrtText StringFacts.
Import FormatTimeFacts FormatterFacts Formatter Seconds Examples.
Local Open Scope string_scope.
Local Open Scope Z_scope.
Local Opaque one_units overflow_units.
Local Arguments String.append !_ _ / : simpl nomatch.

(** Whatever [format_time] returns is four formatted integers around
    the separators. *)
Lemma format_time_shape v out :
  format_time v = Ok out ->
  exists h mi se ms,
    out = format_0d 2 h +:+ ":" +:+ format_0d 2 mi +:+ ":"
          +:+ format_0d 2 se +:+ "," +:+ format_0d 3 ms.
Proof.
  unfold format_time. intros H.
  repeat match type of H with
         | rbind ?m _ = _ =>
             destruct m as [?|?]; [discriminate|]; cbn [rbind] in H
         end.
  injection H as <-. eauto.
Qed.







(** *** Instances *)

Import Scenarios.


End FormatTimeEdgeFacts.

Module FormatterEdgeFacts.
Import Float64 PyStr SrtTime SrtText SrtBlocks StringFacts.
Import FormatterFacts FormatTimeEdgeFacts Formatter Examples.
Local Open Scope string_scope.
Local Open Scope Z_scope.
Local Arguments String.append !_ _ / : simpl nomatch.

(** *** [format_segment] *)


Lemma format_segment_ok_inv index (seg : segment) block :
  format_segment index seg = Ok block ->
  exists s e t st et,
    seg !! "start" = Some s /\ format_time s = Ok st /\
    seg !! "end" = Some e /\ format_time e = Ok et /\
    seg !! "text" = Some (PyStr t) /\
    block = str_of_int index +:+ nl +:+ st +:+ " --> " +:+ et +:+ nl
            +:+ strip t +:+ nl +:+ nl.
Proof.
  unfold format_segment, getitem. intros H.
  destruct (seg !! "start") as [s|]; [|discriminate]. cbn [rbind Ok] in H.
  destruct (format_time s) as [?|st] eqn:Hst; [discriminate|]. cbn [rbind] in H.
  destruct (seg !! "end") as [e|]; [|discriminate]. cbn [rbind Ok] in H.
  destruct (format_time e) as [?|et] eqn:Het; [discriminate|]. cbn [rbind] in H.
  destruct (seg !! "text") as [[| | | |t|]|]; try discriminate.
  cbn in H. injection H as <-. by exists s, e, t, st, et.
Qed.


(** *** [format_srt] *)

Lemma format_srt_loop_app acc i (a b : list segment) :
  format_srt_loop acc i (a ++ b)
  = rbind (format_srt_loop acc i a)
      (fun t => format_srt_loop t (i + Z.of_nat (List.length a)) b).
Proof.
  revert acc i. induction a as [|seg a IH]; intros acc i.
  - cbn. f_equal. lia.
  - cbn [app format_srt_loop List.length].
    destruct (format_segment i seg) as [x|block]; [done|]. cbn [rbind].
    rewrite IH. destruct (format_srt_loop _ _ a); [done|]. cbn [rbind].
    f_equal. lia.
Qed.

Lemma format_srt_loop_acc acc i (segments : list segment) :
  format_srt_loop acc i segments
  = rbind (format_srt_loop "" i segments) (fun tail => Ok (acc +:+ tail)).
Proof.
  rewrite (format_srt_loop_blocks acc), (format_srt_loop_blocks "").
  destruct (concat_results _); done.
Qed.

Lemma all_format_app (a b : list segment) :
  all_format (a ++ b) -> all_format a.
Proof.
  intros H i seg Hi. apply H. by apply lookup_app_l_Some.
Qed.

Lemma format_srt_snoc (a : list segment) seg :
  format_srt (a ++ [seg])
  = rbind (format_srt a) (fun ta =>
      rbind (format_segment (Z.of_nat (List.length a) + 1) seg) (fun block =>
        Ok (ta +:+ block))).
Proof.
  unfold format_srt. rewrite format_srt_loop_app.
  destruct (format_srt_loop "" 1 a) as [x|ta]; [done|]. cbn [rbind format_srt_loop].
  replace (1 + Z.of_nat (List.length a)) with (Z.of_nat (List.length a) + 1) by lia.
  destruct (format_segment _ seg); done.
Qed.

Lemma all_format_ok (segments : list segment) :
  all_format segments -> exists out, format_srt segments = Ok out.
Proof.
  induction segments as [|seg a IH] using rev_ind; [by exists ""|].
  intros H. destruct (IH (all_format_app _ _ H)) as [ta Hta].
  destruct (H (List.length a) seg) as [block Hb].
  { by rewrite lookup_app_r, Nat.sub_diag. }
  rewrite format_srt_snoc, Hta. cbn [rbind]. rewrite Hb. cbn. eauto.
Qed.

Lemma format_srt_ok_all (segments : list segment) out :
  format_srt segments = Ok out -> all_format segments.
Proof.
  revert out. induction segments as [|seg a IH] using rev_ind; intros out H.
  { intros i seg Hi. by rewrite lookup_nil in Hi. }
  rewrite format_srt_snoc in H.
  destruct (format_srt a) as [x|ta] eqn:Hta; [discriminate|]. cbn [rbind] in H.
  destruct (format_segment _ seg) as [x|block] eqn:Hb; [discriminate|].
  intros i s Hi. apply lookup_app_Some in Hi as [Hi|[Hlen Hi]].
  - by apply (IH ta).
  - apply list_lookup_singleton_Some in Hi as [Hi <-].
    replace i with (List.length a) by lia. eauto.
Qed.

(** X4.  [format_srt] returns a text exactly when every segment formats
    under its index.  When some segment does not, it raises the
    exception of the first such segment, and no text is returned for
    the segments before it. *)
Theorem format_srt_all_or_first_error (segments : list segment) :
  (all_format segments <-> exists out, format_srt segments = Ok out) /\
  (forall good bad rest x,
      segments = (good ++ bad :: rest)%list ->
      all_format good ->
      format_segment (Z.of_nat (List.length good) + 1) bad = Raise x ->
      format_srt segments = Raise x).
Proof.
  split; [split; [apply all_format_ok | intros [out H]; by apply (format_srt_ok_all _ out)]|].
  intros good bad rest x -> Hgood Hbad.
  destruct (all_format_ok good Hgood) as [ta Hta].
  unfold format_srt in *. rewrite format_srt_loop_app, Hta.
  cbn [rbind format_srt_loop].
  replace (1 + Z.of_nat (List.length good)) with (Z.of_nat (List.length good) + 1) by lia.
  by rewrite Hbad.
Qed.

(** X5.  The text of a transcript is the text of any initial part of it,
    followed by the blocks of the remaining segments numbered onward. *)
Theorem format_srt_of_app (a b : list segment) (out : string) :
  format_srt (a ++ b) = Ok out ->
  exists ta tb,
    format_srt a = Ok ta /\
    format_srt_loop "" (Z.of_nat (List.length a) + 1) b = Ok tb /\
    out = ta +:+ tb /\ starts_with ta out.
Proof.
  unfold format_srt. rewrite format_srt_loop_app. intros H.
  destruct (format_srt_loop "" 1 a) as [x|ta]; [discriminate|]. cbn [rbind] in H.
  rewrite format_srt_loop_acc in H.
  replace (1 + Z.of_nat (List.length a)) with (Z.of_nat (List.length a) + 1) in H by lia.
  destruct (format_srt_loop "" _ b) as [x|tb]; [discriminate|].
  cbn in H. injection H as <-.
  exists ta, tb. repeat split. by exists tb.
Qed.

(** *** The lines of a formatted transcript *)

Lemma no_newline_zeros n : no_newline (zeros n) = true.
Proof. apply all_digits_no_newline, all_digits_zeros. Qed.

Lemma no_newline_format_0d w z : no_newline (format_0d w z) = true.
Proof.
  unfold format_0d. destruct (z <? 0); cbn [no_newline];
    rewrite ?no_newline_append, no_newline_zeros;
    rewrite (all_digits_no_newline _ (all_digits_decimal _)); done.
Qed.

Lemma no_newline_format_time v out :
  format_time v = Ok out -> no_newline out = true.
Proof.
  intros H. destruct (format_time_shape v out H) as (h & mi & se & ms & ->).
  rewrite !no_newline_append, !no_newline_format_0d. done.
Qed.

Lemma block_lines idx range text rest :
  no_newline idx = true -> no_newline range = true -> no_newline text = true ->
  split_lines ((idx +:+ nl +:+ range +:+ nl +:+ text +:+ nl +:+ nl) +:+ rest)
  = idx :: range :: text :: "" :: split_lines rest.
Proof.
  intros H1 H2 H3. unfold nl. rewrite !append_assoc. cbn [String.append].
  rewrite (split_lines_append idx) by done.
  rewrite (split_lines_append range) by done.
  rewrite (split_lines_append text) by done.
  by rewrite split_lines_newline.
Qed.

Lemma format_segment_four_lines index (seg : segment) block :
  single_line_text seg -> format_segment index seg = Ok block -> four_lines block.
Proof.
  intros Hone H.
  destruct (format_segment_ok_inv index seg block H)
    as (s & e & t & st & et & _ & Hst & _ & Het & Ht & ->).
  exists (str_of_int index), (st +:+ " --> " +:+ et), (strip t). intros rest.
  rewrite <- (block_lines (str_of_int index) (st +:+ " --> " +:+ et) (strip t) rest).
  - by rewrite !append_assoc.
  - apply no_newline_str_of_int.
  - rewrite !no_newline_append, (no_newline_format_time _ _ Hst),
      (no_newline_format_time _ _ Het). done.
  - by apply Hone.
Qed.

Lemma concat_results_lines (blocks : list (result string)) out :
  concat_results blocks = Ok out ->
  Forall (fun b => forall t, b = Ok t -> four_lines t) blocks ->
  List.length (split_lines out) = (4 * List.length blocks + 1)%nat.
Proof.
  revert out. induction blocks as [|b blocks IH]; intros out H Hall.
  { cbn in H. injection H as <-. done. }
  cbn [concat_results] in H. inversion Hall as [|? ? Hb Hrest]; subst.
  destruct b as [x|block]; [discriminate|]. cbn [rbind] in H.
  destruct (concat_results blocks) as [x|tail]; [discriminate|].
  cbn in H. injection H as <-.
  destruct (Hb block eq_refl) as (l1 & l2 & l3 & Hl).
  rewrite Hl. cbn [List.length]. rewrite (IH tail eq_refl Hrest). lia.
Qed.

(** X6.  A transcript of [N] segments whose trimmed texts are single lines
    formats into [4 * N + 1] lines (the last one empty after the final
    line break), so [preview_srt] shows it whole for every bound of at
    least that many lines. *)
Theorem format_srt_line_count (segments : list segment) (out : string) :
  format_srt segments = Ok out ->
  Forall single_line_text segments ->
  line_count out = 4 * Z.of_nat (List.length segments) + 1 /\
  (forall max_lines, 4 * Z.of_nat (List.length segments) + 1 <= max_lines ->
     preview_srt out max_lines = out).
Proof.
  intros H Hone.
  assert (Hn : line_count out = 4 * Z.of_nat (List.length segments) + 1).
  { unfold format_srt in H. rewrite format_srt_loop_blocks in H.
    destruct (concat_results _) as [x|tail] eqn:Hc; [discriminate|].
    cbn in H. injection H as <-.
    unfold line_count. rewrite (concat_results_lines _ _ Hc).
    - rewrite length_imap. lia.
    - apply Forall_lookup_2. intros i b Hi t ->.
      rewrite list_lookup_imap in Hi.
      destruct (segments !! i) as [seg|] eqn:Hseg; [|discriminate].
      cbn in Hi. injection Hi as Hi.
      apply (format_segment_four_lines (Z.of_nat i + 1) seg t); [|done].
      eapply Forall_lookup_1; eauto. }
  split; [exact Hn|]. intros max_lines Hmax. unfold preview_srt.
  fold (line_count out). rewrite Hn.
  by replace (_ <=? max_lines) with true by (symmetry; apply Z.leb_le; lia).
Qed.

(** *** [preview_srt] *)

Lemma join_cons l (ls : list string) :
  ls <> [] -> join nl (l :: ls) = l +:+ nl +:+ join nl ls.
Proof. by destruct ls. Qed.

(** Splitting at the line breaks and joining again gives the text back. *)
Lemma join_split_lines s : join nl (split_lines s) = s.
Proof.
  induction s as [|c s IH]; [done|]. cbn [split_lines].
  pose proof (split_lines_nonempty s) as Hne.
  destruct (Ascii.eqb_spec c newline) as [->|Hc].
  - rewrite join_cons by done. by rewrite IH.
  - destruct (split_lines s) as [|h t]; [done|].
    destruct t as [|h' t'].
    + cbn in IH |- *. by rewrite IH.
    + rewrite join_cons by done. rewrite join_cons in IH by done.
      cbn [String.append]. by rewrite IH.
Qed.

Lemma join_app (a b : list string) :
  a <> [] -> b <> [] -> join nl (a ++ b) = join nl a +:+ nl +:+ join nl b.
Proof.
  intros Ha Hb. induction a as [|x a IH]; [done|].
  destruct a as [|y a].
  - cbn [app]. by rewrite join_cons.
  - change ((x :: y :: a) ++ b)%list with (x :: ((y :: a) ++ b))%list.
    rewrite !join_cons by done. rewrite IH by done.
    by rewrite !append_assoc.
Qed.

(** X7.  What a shortened preview shows is an initial part of the text: the
    text is the shown part followed by the omitted lines (after the
    line break that ends the shown part, when anything is shown), and
    the summary counts exactly the omitted lines. *)
Theorem preview_srt_shows_initial_part (content : string) (N : Z) :
  0 <= N < line_count content ->
  exists shown omitted,
    preview_srt content N
    = shown +:+ nl +:+ nl +:+ summary_line (Z.of_nat (List.length omitted)) /\
    content = shown +:+ (if N =? 0 then "" else nl) +:+ join nl omitted /\
    starts_with shown content /\
    split_lines content = (take (Z.to_nat N) (split_lines content) ++ omitted)%list.
Proof.
  intros [H0 Hlt]. unfold line_count in Hlt.
  set (lines := split_lines content) in *.
  exists (join nl (take (Z.to_nat N) lines)), (drop (Z.to_nat N) lines).
  assert (Hdrop : Z.of_nat (List.length (drop (Z.to_nat N) lines))
                  = Z.of_nat (List.length lines) - N)
    by (rewrite length_drop; lia).
  assert (Hcontent : content = join nl (take (Z.to_nat N) lines)
                     +:+ (if N =? 0 then "" else nl)
                     +:+ join nl (drop (Z.to_nat N) lines)).
  { rewrite <- (join_split_lines content) at 1. fold lines.
    destruct (Z.eqb_spec N 0) as [->|HN].
    - change (Z.to_nat 0) with 0%nat. by rewrite take_0, drop_0.
    - rewrite <- (take_drop (Z.to_nat N) lines) at 1.
      apply join_app.
      + destruct lines; [cbn in Hlt; lia|]. destruct (Z.to_nat N) eqn:E; [lia | done].
      + intros E. rewrite E in Hdrop. cbn in Hdrop. lia. }
  split; [|split; [exact Hcontent | split]].
  - unfold preview_srt. fold lines.
    replace (_ <=? N) with false by (symmetry; apply Z.leb_gt; lia).
    unfold slice_to. replace (0 <=? N) with true by (symmetry; apply Z.leb_le; lia).
    rewrite Hdrop. reflexivity.
  - eexists. exact Hcontent.
  - by rewrite take_drop.
Qed.


(** *** Instances *)

Import Scenarios.

(** X5 on two segments. *)
Lemma format_srt_of_app_witness :
  format_srt ([segment_hi] ++ [segment_hi]) = Ok two_blocks /\
  exists ta tb,
    format_srt [segment_hi] = Ok ta /\
    format_srt_loop "" (Z.of_nat (List.length [segment_hi]) + 1) [segment_hi]
    = Ok tb /\
    two_blocks = ta +:+ tb /\ starts_with ta two_blocks.
Proof.
  assert (H : format_srt ([segment_hi] ++ [segment_hi]) = Ok two_blocks)
    by (vm_compute; reflexivity).
  split; [exact H|].
  exact (format_srt_of_app [segment_hi] [segment_hi] two_blocks H).
Defined.

Lemma single_line_segment_hi : single_line_text segment_hi.
Proof.
  intros t Ht. vm_compute in Ht. injection Ht as <-. vm_compute. reflexivity.
Defined.

(** X6 on two segments: nine lines. *)
Lemma format_srt_line_count_witness :
  format_srt two_segments = Ok two_blocks /\
  Forall single_line_text two_segments /\
  line_count two_blocks = 4 * Z.of_nat (List.length two_segments) + 1 /\
  (forall max_lines, 4 * Z.of_nat (List.length two_segments) + 1 <= max_lines ->
     preview_srt two_blocks max_lines = two_blocks).
Proof.
  assert (H1 : format_srt two_segments = Ok two_blocks) by (vm_compute; reflexivity).
  assert (H2 : Forall single_line_text two_segments)
    by (repeat constructor; apply single_line_segment_hi).
  split; [exact H1|]. split; [exact H2|].
  exact (format_srt_line_count two_segments two_blocks H1 H2).
Defined.

(** X7 on ["a\nb\nc"] with one line kept. *)
Lemma preview_srt_shows_initial_part_witness :
  0 <= 1 < line_count three_lines /\
  exists shown omitted,
    preview_srt three_lines 1
    = shown +:+ nl +:+ nl +:+ summary_line (Z.of_nat (List.length omitted)) /\
    three_lines = shown +:+ (if 1 =? 0 then "" else nl) +:+ join nl omitted /\
    starts_with shown three_lines /\
    split_lines three_lines
    = (take (Z.to_nat 1) (split_lines three_lines) ++ omitted)%list.
Proof.
  assert (H : 0 <= 1 < line_count three_lines)
    by (vm_compute; split; [discriminate | reflexivity]).
  split; [exact H|]. exact (preview_srt_shows_initial_part three_lines 1 H).
Defined.

End FormatterEdgeFacts.

Module ConfigMoreFacts.
Import Config ConfigRules ConfigFacts Examples.
Local Open Scope string_scope.

(** *** The constructor *)

Lemma defaults_names : field_defaults.*1 = field_names.
Proof. reflexivity. Qed.

Lemma defaults_lookup_field (k : string) :
  is_Some ((list_to_map field_defaults : pyobj) !! k) <-> k ∈ field_names.
Proof.
  rewrite <- defaults_names. split.
  - intros [v Hv]. apply elem_of_list_to_map_2 in Hv.
    apply list_elem_of_fmap. by exists (k, v).
  - intros Hk. destruct ((list_to_map field_defaults : pyobj) !! k) eqn:E; [eauto|].
    by apply not_elem_of_list_to_map in E.
Qed.

Lemma with_defaults_lookup (kwargs : pyobj) (k : string) :
  (kwargs ∪ list_to_map field_defaults : pyobj) !! k
  = match kwargs !! k with
    | Some v => Some v
    | None => (list_to_map field_defaults : pyobj) !! k
    end.
Proof.
  rewrite lookup_union.
  destruct (kwargs !! k), ((list_to_map field_defaults : pyobj) !! k); done.
Qed.

Lemma post_init_lookup_ne (self : pyobj) (k : string) :
  k <> "initial_prompt" -> post_init self !! k = self !! k.
Proof.
  intros Hk. unfold post_init.
  destruct (self !! "initial_prompt") as [[]|]; try done.
  destruct (self !! "language") as [[| | | |l|]|]; try done.
  destruct (String.eqb l "sk"); cbv beta iota; [|done]. by rewrite lookup_insert_ne.
Qed.

Lemma post_init_prompt (self : pyobj) p l :
  self !! "initial_prompt" = Some p -> self !! "language" = Some l ->
  post_init self !! "initial_prompt" = Some (resolved_prompt (Some l) (Some p)).
Proof.
  intros Hp Hl. unfold post_init, resolved_prompt. rewrite Hp, Hl.
  cbn [from_option id].
  destruct p; try done. destruct l as [| | | |l|]; try done.
  destruct (String.eqb l "sk"); cbv beta iota; [by rewrite lookup_insert_eq | done].
Qed.

(** The instance that the constructor builds from keywords that all
    name fields. *)
Lemma WhisperConfig_fields (kwargs : pyobj) :
  (forall k, is_Some (kwargs !! k) -> k ∈ field_names) ->
  exists c : pyobj,
    WhisperConfig kwargs = Ok c /\
    (forall k, is_Some (c !! k) <-> k ∈ field_names) /\
    (forall k, k <> "initial_prompt" ->
       c !! k = match kwargs !! k with
                | Some v => Some v
                | None => (list_to_map field_defaults : pyobj) !! k
                end) /\
    c !! "initial_prompt"
    = Some (resolved_prompt (kwargs !! "language") (kwargs !! "initial_prompt")).
Proof.
  intros Hkeys. unfold WhisperConfig.
  rewrite bool_decide_eq_true_2 by (intros k v Hv; apply Hkeys; eauto).
  set (u := (kwargs ∪ list_to_map field_defaults : pyobj)).
  assert (Hu : forall k, u !! k = match kwargs !! k with
                                  | Some v => Some v
                                  | None => (list_to_map field_defaults : pyobj) !! k
                                  end) by apply with_defaults_lookup.
  assert (Hprompt : post_init u !! "initial_prompt"
                    = Some (resolved_prompt (kwargs !! "language")
                              (kwargs !! "initial_prompt"))).
  { rewrite (post_init_prompt u (default PyNone (kwargs !! "initial_prompt"))
               (default (PyStr "sk") (kwargs !! "language"))).
    - unfold resolved_prompt. by destruct (kwargs !! "language"), (kwargs !! "initial_prompt").
    - rewrite Hu. by destruct (kwargs !! "initial_prompt").
    - rewrite Hu. by destruct (kwargs !! "language"). }
  exists (post_init u). split; [done|]. split; [|split; [|exact Hprompt]].
  - intros k. destruct (decide (k = "initial_prompt")) as [->|Hne].
    + rewrite Hprompt. split; [intros _; in_fields | eauto].
    + rewrite post_init_lookup_ne, Hu by done.
      destruct (kwargs !! k) as [v|] eqn:Hv.
      * split; [intros _; apply Hkeys; rewrite Hv; eauto | eauto].
      * apply defaults_lookup_field.
  - intros k Hne. by rewrite post_init_lookup_ne, Hu.
Qed.

Lemma fields_has_fields (c : pyobj) :
  (forall k, is_Some (c !! k) <-> k ∈ field_names) -> has_fields c.
Proof.
  intros Hdom. unfold has_fields. apply Forall_forall. intros k Hk. by apply Hdom.
Qed.

(** X9.  [WhisperConfig] called with keywords.  A keyword that names no
    field is a [TypeError].  Otherwise the new instance has exactly the
    declared fields; every field but the initial prompt holds the value
    given for it, or its declared default; and the initial prompt is
    the one given, except that a prompt that is not given (or given as
    [None]) becomes the Slovak prompt when the language is ["sk"]. *)
Theorem WhisperConfig_instance (kwargs : pyobj) :
  ((exists k, is_Some (kwargs !! k) /\ k ∉ field_names) ->
   WhisperConfig kwargs = Raise TypeError) /\
  ((forall k, is_Some (kwargs !! k) -> k ∈ field_names) ->
   exists c : pyobj,
     WhisperConfig kwargs = Ok c /\
     has_fields c /\
     (forall k, is_Some (c !! k) <-> k ∈ field_names) /\
     (forall k, k <> "initial_prompt" ->
        c !! k = match kwargs !! k with
                 | Some v => Some v
                 | None => (list_to_map field_defaults : pyobj) !! k
                 end) /\
     c !! "initial_prompt"
     = Some (resolved_prompt (kwargs !! "language") (kwargs !! "initial_prompt"))).
Proof.
  split.
  - intros (k & [v Hv] & Hk). unfold WhisperConfig.
    rewrite bool_decide_eq_false_2; [done|].
    intros Hall. apply Hk. by apply (Hall k v).
  - intros Hkeys.
    destruct (WhisperConfig_fields kwargs Hkeys) as (c & Hc & Hdom & Hval & Hprompt).
    exists c. split; [exact Hc|]. split; [by apply fields_has_fields|].
    split; [exact Hdom|]. split; [exact Hval | exact Hprompt].
Qed.

(** *** The export *)

Lemma to_whisper_params_run (c : pyobj) :
  has_fields c ->
  exists v1 v2 v3 v4 v5 v6 v7 v8 v9 v10 v11 v12 v13 v14,
    c !! "language" = Some v1 /\ c !! "task" = Some v2 /\
    c !! "word_timestamps" = Some v3 /\ c !! "temperature" = Some v4 /\
    c !! "best_of" = Some v5 /\ c !! "beam_size" = Some v6 /\
    c !! "patience" = Some v7 /\ c !! "length_penalty" = Some v8 /\
    c !! "suppress_tokens" = Some v9 /\ c !! "initial_prompt" = Some v10 /\
    c !! "condition_on_previous_text" = Some v11 /\
    c !! "compression_ratio_threshold" = Some v12 /\
    c !! "logprob_threshold" = Some v13 /\ c !! "no_speech_threshold" = Some v14 /\
    to_whisper_params c
    = Ok (list_to_map
            [ ("language", v1); ("task", v2); ("word_timestamps", v3);
              ("temperature", v4); ("best_of", v5); ("beam_size", v6);
              ("patience", v7); ("length_penalty", v8); ("suppress_tokens", v9);
              ("initial_prompt", py_or v10 (PyStr ""));
              ("condition_on_previous_text", v11);
              ("compression_ratio_threshold", v12);
              ("logprob_threshold", v13); ("no_speech_threshold", v14) ]).
Proof.
  intros H.
  assert (Hf : forall name, name ∈ field_names -> exists v, c !! name = Some v).
  { intros name Hin. destruct (has_fields_lookup c name H Hin) as [v Hv]. eauto. }
  destruct (Hf "language") as [v1 H1]; [in_fields|].
  destruct (Hf "task") as [v2 H2]; [in_fields|].
  destruct (Hf "word_timestamps") as [v3 H3]; [in_fields|].
  destruct (Hf "temperature") as [v4 H4]; [in_fields|].
  destruct (Hf "best_of") as [v5 H5]; [in_fields|].
  destruct (Hf "beam_size") as [v6 H6]; [in_fields|].
  destruct (Hf "patience") as [v7 H7]; [in_fields|].
  destruct (Hf "length_penalty") as [v8 H8]; [in_fields|].
  destruct (Hf "suppress_tokens") as [v9 H9]; [in_fields|].
  destruct (Hf "initial_prompt") as [v10 H10]; [in_fields|].
  destruct (Hf "condition_on_previous_text") as [v11 H11]; [in_fields|].
  destruct (Hf "compression_ratio_threshold") as [v12 H12]; [in_fields|].
  destruct (Hf "logprob_threshold") as [v13 H13]; [in_fields|].
  destruct (Hf "no_speech_threshold") as [v14 H14]; [in_fields|].
  exists v1, v2, v3, v4, v5, v6, v7, v8, v9, v10, v11, v12, v13, v14.
  do 14 (split; [assumption|]).
  unfold to_whisper_params.
  rewrite (getattr_field _ _ _ H1), (getattr_field _ _ _ H2),
    (getattr_field _ _ _ H3), (getattr_field _ _ _ H4),
    (getattr_field _ _ _ H5), (getattr_field _ _ _ H6),
    (getattr_field _ _ _ H7), (getattr_field _ _ _ H8),
    (getattr_field _ _ _ H9), (getattr_field _ _ _ H10),
    (getattr_field _ _ _ H11), (getattr_field _ _ _ H12),
    (getattr_field _ _ _ H13), (getattr_field _ _ _ H14).
  reflexivity.
Qed.

(** The export of an instance, key by key. *)
Lemma to_whisper_params_lookup (c : pyobj) :
  has_fields c ->
  exists params prompt,
    to_whisper_params c = Ok params /\
    c !! "initial_prompt" = Some prompt /\
    forall k,
      params !! k
      = if bool_decide (k ∈ exported_names) then
          if String.eqb k "initial_prompt" then Some (py_or prompt (PyStr ""))
          else c !! k
        else None.
Proof.
  intros H.
  destruct (to_whisper_params_run c H)
    as (v1 & v2 & v3 & v4 & v5 & v6 & v7 & v8 & v9 & v10 & v11 & v12 & v13 & v14
        & H1 & H2 & H3 & H4 & H5 & H6 & H7 & H8 & H9 & H10 & H11 & H12 & H13 & H14
        & Hrun).
  eexists _, v10. split; [exact Hrun|]. split; [exact H10|]. intros k.
  destruct (bool_decide (k ∈ exported_names)) eqn:Hk.
  - apply bool_decide_eq_true_1 in Hk. unfold exported_names in Hk.
    repeat (apply elem_of_cons in Hk as [->|Hk]);
      [ rewrite H1 | rewrite H2 | rewrite H3 | rewrite H4 | rewrite H5
      | rewrite H6 | rewrite H7 | rewrite H8 | rewrite H9 | | rewrite H11
      | rewrite H12 | rewrite H13 | rewrite H14 | by apply elem_of_nil in Hk ];
      reflexivity.
  - apply bool_decide_eq_false_1 in Hk.
    apply not_elem_of_list_to_map. exact Hk.
Qed.

(** X10.  The mapping that [to_whisper_params] returns for an instance has
    exactly the fourteen engine parameters as keys: the model size is
    never exported.  Every parameter but the initial prompt has the
    value of the attribute of the same name. *)
Theorem to_whisper_params_keys (c : pyobj) :
  has_fields c ->
  exists params,
    to_whisper_params c = Ok params /\
    (forall k, is_Some (params !! k) <-> k ∈ exported_names) /\
    params !! "model_size" = None /\
    (forall k, k ∈ exported_names -> k <> "initial_prompt" ->
       params !! k = c !! k).
Proof.
  intros H.
  destruct (to_whisper_params_lookup c H) as (params & prompt & Hrun & Hp & Hk).
  exists params. split; [exact Hrun|]. split; [|split].
  - intros k. rewrite Hk. destruct (bool_decide (k ∈ exported_names)) eqn:E.
    + apply bool_decide_eq_true_1 in E. split; [done|]. intros _.
      destruct (String.eqb k "initial_prompt"); [eauto|].
      apply (has_fields_lookup c k H).
      unfold exported_names in E. unfold field_names.
      repeat (apply elem_of_cons in E as [->|E]); [in_fields .. |by apply elem_of_nil in E].
    + apply bool_decide_eq_false_1 in E. split; [by intros [? ?] | done].
  - rewrite Hk. reflexivity.
  - intros k Hin Hne. rewrite Hk, (bool_decide_eq_true_2 _ Hin).
    by apply String.eqb_neq in Hne as ->.
Qed.

(** *** Instances *)

(** X10 at [WhisperConfig(language="en")]. *)
Lemma to_whisper_params_keys_witness :
  has_fields english_without_prompt /\
  exists params,
    to_whisper_params english_without_prompt = Ok params /\
    (forall k, is_Some (params !! k) <-> k ∈ exported_names) /\
    params !! "model_size" = None /\
    (forall k, k ∈ exported_names -> k <> "initial_prompt" ->
       params !! k = english_without_prompt !! k).
Proof.
  assert (H : has_fields english_without_prompt)
    by (unfold has_fields; repeat constructor; vm_compute; eauto).
  split; [exact H|]. exact (to_whisper_params_keys english_without_prompt H).
Defined.
End ConfigMoreFacts.

Module GenerateFacts.
Import Config ConfigRules ConfigFacts ConfigMoreFacts Generator Traces.
Import GeneratorFacts Examples.
Local Open Scope string_scope.

Section Engine.
Context {handle : Type}.
Variable whisper_load_model : string -> result handle.
Variable model_transcribe : handle -> string -> pydict -> result transcription.
Variable open_write : string -> string -> result unit.
Variable type_attrs : gset string.

Local Abbreviation load_model := (load_model whisper_load_model).
Local Abbreviation transcribe := (transcribe whisper_load_model model_transcribe).
Local Abbreviation save_srt := (save_srt (handle := handle) open_write).
Local Abbreviation generate :=
  (generate whisper_load_model model_transcribe open_write).
Local Abbreviation generate_translated :=
  (generate_translated whisper_load_model model_transcribe open_write).
Local Abbreviation update_config := (update_config (handle := handle) type_attrs).
Local Abbreviation run_calls :=
  (run_calls whisper_load_model model_transcribe open_write type_attrs).
Local Abbreviation after_load := (after_load whisper_load_model).

Implicit Types (st : state handle) (h : handle).

Local Arguments dict_merge : simpl never.
Local Arguments getitem : simpl never.
Local Arguments to_whisper_params : simpl never.

Lemma transcribe_ready_run st h (c exported : pyobj)
    (video_path : string) (kwargs : pydict) :
  model (self st) = Some h
  \/ (model (self st) = None
      /\ whisper_load_model (model_size (self st)) = Ok h) ->
  video_path ∈ files st ->
  configs st !! config (self st) = Some c ->
  to_whisper_params c = Ok exported ->
  is_Some (exported !! "language") ->
  transcribe video_path kwargs st
  = (model_transcribe h video_path (dict_merge exported kwargs),
     {| self := {| model_size := model_size (self st);
                   config := config (self st); model := Some h |};
        configs := configs st; files := files st;
        calls := calls st
                 ++ match model (self st) with
                    | Some _ => []
                    | None => [LoadModel (model_size (self st))]
                    end
                 ++ [Transcribe h video_path (dict_merge exported kwargs)] |}).
Proof.
  intros Hready Hfile Hc Hexp Hlang. destruct Hready as [Hm|[Hm Hload]].
  - rewrite (transcribe_loaded_run _ _ st h c exported) by done.
    rewrite Hm. destruct st as [[size cfg md] objs fs tr]. cbn in *. by subst.
  - rewrite (transcribe_after_load _ _ st h video_path kwargs Hm Hload).
    rewrite (transcribe_loaded_run _ _ (after_load st) h c exported); try done.
    + rewrite Hm. unfold Generator.after_load. cbn. rewrite Hload.
      by rewrite <- app_assoc.
    + unfold Generator.after_load. cbn. by rewrite Hload.
Qed.

(** *** The keywords of [generate] *)

Lemma generate_unfold video_path output_path language translate kwargs :
  generate video_path output_path language translate kwargs
  = bind (transcribe video_path (passed_keywords language translate kwargs))
      (fun result =>
         bind (lift (Formatter.format_srt (segments result))) (fun srt_content =>
           bind (save_srt srt_content output_path) (fun _ => ret srt_content))).
Proof. reflexivity. Qed.

(** [generate], step by step after [transcribe]. *)
Lemma generate_run st video_path output_path language translate kwargs :
  generate video_path output_path language translate kwargs st
  = match transcribe video_path (passed_keywords language translate kwargs) st with
    | (inl e, st1) => (inl e, st1)
    | (inr result, st1) =>
        match Formatter.format_srt (segments result) with
        | inl e => (inl e, st1)
        | inr srt =>
            let st2 :=
              {| self := self st1; configs := configs st1; files := files st1;
                 calls := calls st1 ++ [WriteFile output_path srt] |} in
            match open_write output_path srt with
            | inl e => (inl e, st2)
            | inr _ =>
                (Ok srt,
                 {| self := self st1; configs := configs st1;
                    files := {[output_path]} ∪ files st1;
                    calls := calls st1 ++ [WriteFile output_path srt] |})
            end
        end
    end.
Proof.
  rewrite generate_unfold, bind_run.
  destruct (transcribe _ _ st) as [[e|result] st1]; [done|].
  rewrite bind_run. unfold lift at 1.
  destruct (Formatter.format_srt (segments result)) as [e|srt]; [done|].
  rewrite bind_run. unfold Generator.save_srt, bind, emit, lift, add_file, ret.
  destruct (open_write output_path srt) as [e|[]]; done.
Qed.

Lemma passed_keywords_language (l : string) translate (kwargs : pydict) :
  l <> "" ->
  passed_keywords (Some l) translate kwargs !! "language" = Some (PyStr l).
Proof.
  intros Hl. unfold passed_keywords. apply String.eqb_neq in Hl. rewrite Hl.
  destruct translate; [rewrite lookup_insert_ne by done|]; by rewrite lookup_insert_eq.
Qed.

Lemma passed_keywords_task language (kwargs : pydict) :
  passed_keywords language true kwargs !! "task" = Some (PyStr "translate").
Proof. unfold passed_keywords. by rewrite lookup_insert_eq. Qed.

Lemma passed_keywords_other language translate (kwargs : pydict) (k : string) :
  (k = "language" -> language = None \/ language = Some "") ->
  (k = "task" -> translate = false) ->
  passed_keywords language translate kwargs !! k = kwargs !! k.
Proof.
  intros Hl Ht. unfold passed_keywords.
  assert (H1 : match language with
               | Some l => if String.eqb l "" then kwargs
                           else <["language" := PyStr l]> kwargs
               | None => kwargs
               end !! k = kwargs !! k).
  { destruct language as [l|]; [|done].
    destruct (String.eqb_spec l "") as [->|Hne]; [done|].
    rewrite lookup_insert_ne; [done|]. intros <-.
    destruct (Hl eq_refl) as [?|[= ->]]; done. }
  destruct translate; [|done].
  rewrite lookup_insert_ne; [done|]. intros <-. by specialize (Ht eq_refl).
Qed.

(** X11.  What [generate] hands to the engine and, when the engine, the
    formatter and the storage all succeed, what it leaves behind.  The
    parameters are the export of the configuration under the call's
    keywords, where ['language'] is the language given to [generate]
    when it is not empty and ['task'] is ['translate'] when [translate]
    is true; otherwise both come from the keywords or the
    configuration.  On success [generate] returns the formatted text
    of the segments, that same text was written to the output path,
    and the trace gained the engine run followed by the write. *)
Theorem generate_runs_formats_and_writes st h (c : pyobj)
    (video_path output_path : string) (language : option string)
    (translate : bool) (kwargs : pydict) :
  model (self st) = Some h
  \/ (model (self st) = None
      /\ whisper_load_model (model_size (self st)) = Ok h) ->
  video_path ∈ files st ->
  configs st !! config (self st) = Some c ->
  has_fields c ->
  exists exported params,
    to_whisper_params c = Ok exported /\
    (forall l, language = Some l -> l <> "" ->
       params !! "language" = Some (PyStr l)) /\
    (translate = true -> params !! "task" = Some (PyStr "translate")) /\
    (forall k,
       (k = "language" -> language = None \/ language = Some "") ->
       (k = "task" -> translate = false) ->
       params !! k = match kwargs !! k with
                     | Some v => Some v
                     | None => exported !! k
                     end) /\
    (forall result srt,
       model_transcribe h video_path params = Ok result ->
       Formatter.format_srt (segments result) = Ok srt ->
       open_write output_path srt = Ok tt ->
       let outcome := generate video_path output_path language translate kwargs st in
       fst outcome = Ok srt /\
       calls (snd outcome)
       = (calls st
          ++ match model (self st) with
             | Some _ => []
             | None => [LoadModel (model_size (self st))]
             end
          ++ [Transcribe h video_path params; WriteFile output_path srt])%list /\
       files (snd outcome) = {[output_path]} ∪ files st /\
       configs (snd outcome) = configs st /\
       model (self (snd outcome)) = Some h).
Proof.
  intros Hready Hfile Hc Hf.
  destruct (to_whisper_params_lookup c Hf) as (exported & prompt & Hexp & Hp & Hk).
  assert (Hlang : is_Some (exported !! "language")).
  { rewrite Hk. cbn. apply (has_fields_lookup c "language" Hf). in_fields. }
  set (kw := passed_keywords language translate kwargs).
  exists exported, (dict_merge exported kw).
  split; [exact Hexp|]. split; [|split; [|split]].
  - intros l -> Hl. rewrite dict_merge_lookup. unfold kw.
    by rewrite passed_keywords_language.
  - intros ->. rewrite dict_merge_lookup. unfold kw.
    by rewrite passed_keywords_task.
  - intros k Hkl Hkt. rewrite dict_merge_lookup. unfold kw.
    by rewrite passed_keywords_other.
  - intros result srt Hrun Hfmt Hwrite outcome. subst outcome.
    rewrite generate_run. fold kw.
    rewrite (transcribe_ready_run st h c exported video_path kw Hready Hfile Hc Hexp Hlang).
    rewrite Hrun. cbv beta iota delta [Ok].
    rewrite Hfmt. cbv beta iota zeta delta [Ok].
    rewrite Hwrite. cbv beta iota delta [Ok].
    cbn [fst snd calls files configs self model].
    repeat split. by rewrite <- !app_assoc.
Qed.

(** *** Writes *)













(** *** A load that fails *)

Lemma failed_load_run st e :
  model (self st) = None ->
  whisper_load_model (model_size (self st)) = Raise e ->
  load_model st = (Raise e, after_load st)
  /\ model (self (after_load st)) = None
  /\ model_size (self (after_load st)) = model_size (self st)
  /\ loads (calls (after_load st)) = S (loads (calls st))
  /\ runs (calls (after_load st)) = runs (calls st).
Proof.
  intros Hm He. rewrite (load_model_unloaded _ st Hm), He.
  unfold Generator.after_load. cbn [self model model_size calls].
  rewrite He, loads_app, runs_app. cbn. repeat split; lia.
Qed.

(** X13.  A load that fails is not remembered: the generator stays without
    a model, every further load request or [transcribe] call asks the
    engine again and raises what the engine raised, and [transcribe]
    then reaches neither the path check nor the run step. *)
Theorem failed_load_is_retried st e (n : nat) :
  model (self st) = None ->
  whisper_load_model (model_size (self st)) = Raise e ->
  let st' := run_calls (repeat CallLoadModel n) st in
  model (self st') = None /\
  loads (calls st') = (loads (calls st) + n)%nat /\
  fst (load_model st') = Raise e /\
  (forall video_path kwargs,
      fst (transcribe video_path kwargs st') = Raise e /\
      loads (calls (snd (transcribe video_path kwargs st'))) = S (loads (calls st')) /\
      runs (calls (snd (transcribe video_path kwargs st'))) = runs (calls st')).
Proof.
  intros Hm He st'.
  assert (Hinv : model (self st') = None
                 /\ model_size (self st') = model_size (self st)
                 /\ loads (calls st') = (loads (calls st) + n)%nat).
  { subst st'. revert st Hm He. induction n as [|n IH]; intros st Hm He.
    - cbn [repeat Generator.run_calls fold_left]. by rewrite Nat.add_0_r.
    - cbn [repeat Generator.run_calls fold_left Generator.run_call].
      destruct (failed_load_run st e Hm He) as (Hrun & Hm' & Hsize & Hloads & _).
      rewrite Hrun. cbn [snd].
      destruct (IH (after_load st) Hm') as (H1 & H2 & H3).
      { by rewrite Hsize. }
      unfold Generator.run_calls in *. rewrite H1, H2, H3, Hsize, Hloads.
      repeat split. lia. }
  destruct Hinv as (Hm' & Hsize & Hloads).
  assert (He' : whisper_load_model (model_size (self st')) = Raise e)
    by (by rewrite Hsize).
  destruct (failed_load_run st' e Hm' He') as (Hrun & _ & _ & Hl & Hr).
  split; [done|]. split; [done|]. split; [by rewrite Hrun|].
  intros video_path kwargs. unfold Generator.transcribe.
  rewrite bind_run, Hrun. cbn [fst snd]. done.
Qed.

(** *** [generate_translated] *)

(** X14.  [generate_translated] passes its own [language] and [translate]
    keywords to [generate]: a call that has one of them among its
    further keywords is a [TypeError] before anything else happens.
    Otherwise, when the call reaches the engine, the engine is run
    once, with the task ['translate'] whatever the configuration and
    the keywords say, and with the source language as the language
    unless the source language is the empty string. *)
Theorem generate_translated_hands_over st h (c : pyobj)
    (video_path output_path source_language : string) (kwargs : pydict) :
  (is_Some (kwargs !! "language") \/ is_Some (kwargs !! "translate") ->
   generate_translated video_path output_path source_language kwargs st
   = (Raise TypeError, st)) /\
  (kwargs !! "language" = None -> kwargs !! "translate" = None ->
   model (self st) = Some h
   \/ (model (self st) = None
       /\ whisper_load_model (model_size (self st)) = Ok h) ->
   video_path ∈ files st ->
   configs st !! config (self st) = Some c ->
   has_fields c ->
   let outcome :=
     generate_translated video_path output_path source_language kwargs st in
   exists exported params trace,
     to_whisper_params c = Ok exported /\
     calls (snd outcome)
     = (calls st
        ++ match model (self st) with
           | Some _ => []
           | None => [LoadModel (model_size (self st))]
           end
        ++ Transcribe h video_path params :: trace)%list /\
     runs trace = 0%nat /\
     params !! "task" = Some (PyStr "translate") /\
     params !! "language"
     = (if String.eqb source_language "" then exported !! "language"
        else Some (PyStr source_language)) /\
     (forall k, k <> "task" -> k <> "language" ->
        params !! k = match kwargs !! k with
                      | Some v => Some v
                      | None => exported !! k
                      end)).
Proof.
  split.
  - intros Hdup. unfold Generator.generate_translated.
    destruct Hdup as [H|H].
    + by rewrite (bool_decide_eq_true_2 _ H).
    + rewrite (bool_decide_eq_true_2 (is_Some (kwargs !! "translate")) H).
      by rewrite orb_true_r.
  - intros Hl Ht Hready Hfile Hc Hf outcome. subst outcome.
    unfold Generator.generate_translated.
    rewrite !bool_decide_eq_false_2 by (rewrite ?Hl, ?Ht; by intros [? ?]).
    cbn [orb].
    destruct (to_whisper_params_lookup c Hf) as (exported & prompt & Hexp & Hp & Hk).
    assert (Hlang : is_Some (exported !! "language")).
    { rewrite Hk. cbn. apply (has_fields_lookup c "language" Hf). in_fields. }
    set (kw := passed_keywords (Some source_language) true kwargs).
    assert (Htrace : exists trace,
               calls (snd (generate video_path output_path (Some source_language)
                             true kwargs st))
               = (calls st
                  ++ match model (self st) with
                     | Some _ => []
                     | None => [LoadModel (model_size (self st))]
                     end
                  ++ Transcribe h video_path (dict_merge exported kw) :: trace)%list
               /\ runs trace = 0%nat).
    { rewrite generate_run. fold kw.
      rewrite (transcribe_ready_run st h c exported video_path kw
                 Hready Hfile Hc Hexp Hlang).
      destruct (model_transcribe h video_path _) as [e|result].
      { exists []. by cbn. }
      destruct (Formatter.format_srt (segments result)) as [e|srt].
      { exists []. by cbn. }
      exists [WriteFile output_path srt].
      destruct (open_write output_path srt) as [e|[]];
        cbn [fst snd calls]; rewrite <- !app_assoc; done. }
    destruct Htrace as (trace & Htrace & Hruns).
    exists exported, (dict_merge exported kw), trace.
    split; [exact Hexp|]. split; [exact Htrace|]. split; [exact Hruns|].
    split; [|split].
    + rewrite dict_merge_lookup. unfold kw. by rewrite passed_keywords_task.
    + rewrite dict_merge_lookup. unfold kw.
      destruct (String.eqb_spec source_language "") as [->|Hne].
      * rewrite passed_keywords_other, Hl; [done | by right | done].
      * by rewrite passed_keywords_language.
    + intros k Hk1 Hk2. rewrite dict_merge_lookup. unfold kw.
      by rewrite passed_keywords_other.
Qed.

(** *** [update_config] and the other parts of the state *)

Lemma config_object_run st :
  config_object st
  = (match configs st !! config (self st) with
     | Some c => Ok c
     | None => Raise (AttributeError "config")
     end, st).
Proof.
  unfold config_object, bind, get. cbv beta iota delta [Ok].
  by destruct (configs st !! config (self st)).
Qed.

Lemma update_config_loop_frame items st :
  self (snd (update_config_loop type_attrs items st)) = self st /\
  calls (snd (update_config_loop type_attrs items st)) = calls st /\
  files (snd (update_config_loop type_attrs items st)) = files st /\
  (forall ref, ref <> config (self st) ->
     configs (snd (update_config_loop type_attrs items st)) !! ref
     = configs st !! ref).
Proof.
  revert st. induction items as [|[k v] rest IH]; intros st; [done|].
  cbn [update_config_loop]. rewrite bind_run, config_object_run.
  destruct (configs st !! config (self st)) as [c|]; [|done].
  cbv beta iota delta [Ok]. rewrite bind_run.
  destruct (hasattr type_attrs c k).
  - rewrite bind_run. unfold lift at 1.
    destruct (setattr c k v) as [e|c']; [done|].
    unfold set_config_object. cbv beta iota delta [Ok].
    destruct (IH {| self := self st;
                    configs := <[config (self st) := c']> (configs st);
                    files := files st; calls := calls st |})
      as (H1 & H2 & H3 & H4).
    cbn [self calls files configs] in *.
    split; [done|]. split; [done|]. split; [done|].
    intros ref Href. rewrite H4 by done.
    by rewrite lookup_insert_ne.
  - unfold ret. cbv beta iota delta [Ok]. apply IH.
Qed.

(** X15.  [update_config] touches nothing but the configuration object that
    the generator holds, whether it returns or raises: the generator's
    own fields, the trace of engine calls, the storage and every other
    configuration object stay as they are.  In particular the model
    size that the generator loads is the one it was constructed with,
    also after [update_config(model_size=...)]. *)
Theorem update_config_frame st (kwargs : list (string * pyval)) :
  let st' := snd (update_config kwargs st) in
  self st' = self st /\
  calls st' = calls st /\
  files st' = files st /\
  (forall ref, ref <> config (self st) ->
     configs st' !! ref = configs st !! ref) /\
  (model (self st) = None ->
   calls (snd (load_model st'))
   = (calls st ++ [LoadModel (model_size (self st))])%list).
Proof.
  intros st'. subst st'. unfold Generator.update_config.
  destruct (update_config_loop_frame kwargs st) as (H1 & H2 & H3 & H4).
  split; [done|]. split; [done|]. split; [done|]. split; [done|].
  intros Hm. rewrite load_model_unloaded by (by rewrite H1).
  unfold Generator.after_load. cbn [snd calls]. by rewrite H1, H2.
Qed.

(** *** [update_config], then [transcribe] *)



Lemma assign_all_field (c : pyobj) items (k : string) (v : pyval) :
  has_fields c -> NoDup items.*1 -> (k, v) ∈ items -> k ∈ field_names ->
  assign_all type_attrs c items !! k = Some v.
Proof.
  intros Hf Hnd Hin Hk. rewrite (assign_all_lookup_in _ c items k v Hnd Hin).
  assert (Hattr : hasattr type_attrs c k = true).
  { unfold hasattr. rewrite bool_decide_eq_true_2; [done|].
    by apply has_fields_lookup. }
  by rewrite Hattr.
Qed.



(** *** Generators that hold the same configuration object *)

(** X17.  The configuration object is shared, not copied.  Generators
    constructed without a configuration all hold [DEFAULT_CONFIG]; and
    whenever another generator holds the object that this one holds, a
    field assigned through [update_config] here is what the other one
    reads.  A generator that holds another object reads what it read
    before. *)
Theorem update_config_is_shared st (c : pyobj)
    (kwargs : list (string * pyval)) (other : SubtitleGenerator handle) :
  configs st !! config (self st) = Some c ->
  has_fields c ->
  NoDup kwargs.*1 ->
  (forall k, k ∈ kwargs.*1 -> k ∉ data_descriptors) ->
  let st' := snd (update_config kwargs st) in
  (forall size1 size2,
      config (init (handle := handle) size1 None)
      = config (init (handle := handle) size2 None)) /\
  (config other = config (self st) ->
   exists c' : pyobj,
     fst (config_object (switch_to other st')) = Ok c' /\
     (forall k v, (k, v) ∈ kwargs -> k ∈ field_names -> c' !! k = Some v) /\
     (forall k, k ∉ kwargs.*1 -> c' !! k = c !! k)) /\
  (config other <> config (self st) ->
   fst (config_object (switch_to other st'))
   = fst (config_object (switch_to other st))).
Proof.
  intros Hc Hf Hnd Hd st'. subst st'. split; [done|].
  destruct (update_config_loop_frame kwargs st) as (_ & _ & _ & Hother).
  unfold Generator.update_config in *.
  rewrite (update_config_loop_run _ kwargs st c Hc Hd) in *. cbn [snd] in *.
  split.
  - intros Hsame. exists (assign_all type_attrs c kwargs).
    rewrite config_object_run. unfold switch_to, with_config_object.
    cbn [fst self configs]. rewrite Hsame, lookup_insert_eq.
    split; [done|]. split.
    + intros k v Hin Hk. by apply assign_all_field.
    + intros k Hk. by apply assign_all_lookup_notin.
  - intros Hdiff. rewrite !config_object_run. unfold switch_to.
    cbn [fst self configs]. by rewrite Hother.
Qed.

(** *** Errors of [generate] *)

End Engine.

(** *** Instances *)

Import Scenarios.

Lemma has_fields_default : has_fields DEFAULT_CONFIG.
Proof. unfold has_fields; repeat constructor; vm_compute; eauto. Defined.

Lemma loaded_state_ready :
  model (self loaded_state) = Some tt
  \/ (model (self loaded_state) = None
      /\ stub_load (model_size (self loaded_state)) = Ok tt).
Proof. left; reflexivity. Defined.

Lemma video_on_storage : "video.mp4" ∈ files loaded_state.
Proof. apply (bool_decide_unpack _). vm_compute. exact I. Defined.

(** X11 on a loaded generator:
    [generate("video.mp4", "out.srt", language="en", translate=True)]. *)
Lemma generate_runs_formats_and_writes_witness :
  (model (self loaded_state) = Some tt
   \/ (model (self loaded_state) = None
       /\ stub_load (model_size (self loaded_state)) = Ok tt)) /\
  ("video.mp4" ∈ files loaded_state) /\
  configs loaded_state !! config (self loaded_state) = Some DEFAULT_CONFIG /\
  has_fields DEFAULT_CONFIG /\
  exists exported params,
    to_whisper_params DEFAULT_CONFIG = Ok exported /\
    (forall l, Some "en" = Some l -> l <> "" ->
       params !! "language" = Some (PyStr l)) /\
    (true = true -> params !! "task" = Some (PyStr "translate")) /\
    (forall k,
       (k = "language" -> Some "en" = None \/ Some "en" = Some "") ->
       (k = "task" -> true = false) ->
       params !! k = match (∅ : pydict) !! k with
                     | Some v => Some v
                     | None => exported !! k
                     end) /\
    (forall result srt,
       stub_run tt "video.mp4" params = Ok result ->
       Formatter.format_srt (segments result) = Ok srt ->
       stub_write "out.srt" srt = Ok tt ->
       let outcome :=
         generate stub_load stub_run stub_write "video.mp4" "out.srt"
           (Some "en") true ∅ loaded_state in
       fst outcome = Ok srt /\
       calls (snd outcome)
       = (calls loaded_state
          ++ match model (self loaded_state) with
             | Some _ => []
             | None => [LoadModel (model_size (self loaded_state))]
             end
          ++ [Transcribe tt "video.mp4" params; WriteFile "out.srt" srt])%list /\
       files (snd outcome) = {["out.srt"]} ∪ files loaded_state /\
       configs (snd outcome) = configs loaded_state /\
       model (self (snd outcome)) = Some tt).
Proof.
  split; [exact loaded_state_ready|]. split; [exact video_on_storage|].
  split; [reflexivity|]. split; [exact has_fields_default|].
  exact (generate_runs_formats_and_writes stub_load stub_run stub_write
           loaded_state tt DEFAULT_CONFIG "video.mp4" "out.srt" (Some "en") true ∅
           loaded_state_ready video_on_storage eq_refl has_fields_default).
Defined.

(** X13 after two load requests on an engine
    whose model cannot be loaded. *)
Lemma failed_load_is_retried_witness :
  model (self fresh_state) = None /\
  failing_load (model_size (self fresh_state)) = Raise (EngineFailure 1) /\
  let st' :=
    run_calls failing_load stub_run stub_write ∅
      (repeat CallLoadModel 2) fresh_state in
  model (self st') = None /\
  loads (calls st') = (loads (calls fresh_state) + 2)%nat /\
  fst (load_model failing_load st') = Raise (EngineFailure 1) /\
  (forall video_path kwargs,
      fst (transcribe failing_load stub_run video_path kwargs st')
      = Raise (EngineFailure 1) /\
      loads (calls (snd (transcribe failing_load stub_run video_path kwargs st')))
      = S (loads (calls st')) /\
      runs (calls (snd (transcribe failing_load stub_run video_path kwargs st')))
      = runs (calls st')).
Proof.
  split; [reflexivity|]. split; [reflexivity|].
  exact (failed_load_is_retried failing_load stub_run stub_write ∅
           fresh_state (EngineFailure 1) 2 eq_refl eq_refl).
Defined.

Lemma field_and_unknown_nodup : NoDup field_and_unknown.*1.
Proof. apply (bool_decide_unpack _). vm_compute. exact I. Defined.

Lemma field_and_unknown_assignable (k : string) :
  k ∈ field_and_unknown.*1 -> k ∉ data_descriptors.
Proof.
  revert k. apply (proj1 (Forall_forall _ _)).
  apply (bool_decide_unpack _). vm_compute. exact I.
Defined.


(** X17 on two generators constructed without a
    configuration. *)
Lemma update_config_is_shared_witness :
  configs fresh_state !! config (self fresh_state) = Some DEFAULT_CONFIG /\
  has_fields DEFAULT_CONFIG /\
  NoDup field_and_unknown.*1 /\
  (forall k, k ∈ field_and_unknown.*1 -> k ∉ data_descriptors) /\
  let st' := snd (update_config ∅ field_and_unknown fresh_state) in
  (forall size1 size2,
      config (init (handle := unit) size1 None)
      = config (init (handle := unit) size2 None)) /\
  (config second_generator = config (self fresh_state) ->
   exists c' : pyobj,
     fst (config_object (switch_to second_generator st')) = Ok c' /\
     (forall k v, (k, v) ∈ field_and_unknown -> k ∈ field_names ->
        c' !! k = Some v) /\
     (forall k, k ∉ field_and_unknown.*1 -> c' !! k = DEFAULT_CONFIG !! k)) /\
  (config second_generator <> config (self fresh_state) ->
   fst (config_object (switch_to second_generator st'))
   = fst (config_object (switch_to second_generator fresh_state))).
Proof.
  split; [reflexivity|]. split; [exact has_fields_default|].
  split; [exact field_and_unknown_nodup|].
  split; [exact field_and_unknown_assignable|].
  exact (update_config_is_shared ∅ fresh_state DEFAULT_CONFIG field_and_unknown
           second_generator eq_refl has_fields_default
           field_and_unknown_nodup field_and_unknown_assignable).
Defined.
End GenerateFacts.

Module LegacyFacts.
Import PyStr StringFacts Formatter.
Local Open Scope string_scope.
Local Open Scope Z_scope.
Local Arguments String.append !_ _ / : simpl nomatch.

Lemma _format_srt_loop_eq acc i (segments : list segment) :
  Legacy._format_srt_loop acc i segments = format_srt_loop acc i segments.
Proof.
  revert acc i. induction segments as [|seg rest IH]; intros acc i; [done|].
  cbn [Legacy._format_srt_loop format_srt_loop]. unfold format_segment.
  change Legacy._format_time with format_time.
  destruct (rbind (getitem seg "start") _) as [?|st]; [done|]. cbn [rbind].
  destruct (rbind (getitem seg "end") _) as [?|et]; [done|]. cbn [rbind].
  destruct (rbind (getitem seg "text") _) as [?|t]; [done|]. cbn [rbind Ok].
  rewrite IH. f_equal. by rewrite !append_assoc.
Qed.

Lemma generate_subtitles_loop_eq acc i (segments : list segment) :
  Legacy.generate_subtitles_loop acc i segments
  = Legacy._format_srt_loop acc i segments.
Proof.
  revert acc i. induction segments as [|seg rest IH]; intros acc i; [done|].
  cbn [Legacy.generate_subtitles_loop Legacy._format_srt_loop].
  change Legacy.format_time with Legacy._format_time.
  destruct (rbind (getitem seg "start") _) as [?|st]; [done|]. cbn [rbind].
  destruct (rbind (getitem seg "end") _) as [?|et]; [done|]. cbn [rbind].
  destruct (rbind (getitem seg "text") _) as [?|t]; [done|]. cbn [rbind].
  apply IH.
Qed.

(** X19.  The formatting code of the two earlier scripts and the formatter
    of the package agree on every input: the same text, or the same
    exception, for every list of segments, although the scripts append
    the three lines of a block one by one. *)
Theorem legacy_formatting_agrees (segments : list segment) :
  Legacy._format_srt segments = format_srt segments /\
  Legacy.generate_subtitles_loop "" 1 segments = format_srt segments /\
  (forall seconds,
      Legacy._format_time seconds = format_time seconds /\
      Legacy.format_time seconds = format_time seconds).
Proof.
  split; [|split].
  - apply _format_srt_loop_eq.
  - rewrite generate_subtitles_loop_eq. apply _format_srt_loop_eq.
  - intros seconds. split; reflexivity.
Qed.
End LegacyFacts.

Module CliFacts.
Import PyPath Config ConfigRules ConfigFacts ConfigMoreFacts Generator Traces.
Import GeneratorFacts GenerateFacts Cli.
Local Open Scope string_scope.

Section Cli.
Variable module_file : string.
Variable resolve : Path -> Path.
Context {handle : Type}.
Variable whisper_load_model : string -> result handle.
Variable model_transcribe : handle -> string -> pydict -> result transcription.
Variable open_write : string -> string -> result unit.

Local Abbreviation project_root := (project_root module_file).
Local Abbreviation resolve_paths := (resolve_paths module_file resolve).
Local Abbreviation run_cli :=
  (run_cli module_file resolve whisper_load_model model_transcribe open_write).
Local Abbreviation generate :=
  (generate whisper_load_model model_transcribe open_write).
Local Abbreviation transcribe := (transcribe whisper_load_model model_transcribe).

Implicit Types (st : state handle) (h : handle) (p : Path).

(** *** Paths *)

Lemma relative_root p : is_absolute p = false -> root p = "".
Proof.
  unfold is_absolute. intros H. apply negb_false_iff in H.
  by apply String.eqb_eq in H.
Qed.

Lemma joinpath_relative p (s : string) :
  is_absolute (of_string s) = false ->
  joinpath p s = {| root := root p; parts := parts p ++ parts (of_string s) |}.
Proof. intros H. unfold joinpath. by rewrite H. Qed.

Lemma public_parts :
  joinpath project_root "public"
  = {| root := root project_root; parts := parts project_root ++ ["public"] |}.
Proof. reflexivity. Qed.

Lemma removelast_nil {A} (l : list A) :
  removelast l = [] <-> (List.length l <= 1)%nat.
Proof.
  destruct l as [|x [|y l]]; cbn; split; try done; try lia.
Qed.

Lemma parent_is_dot p :
  is_absolute p = false ->
  (parent p = of_string "." <-> (List.length (parts p) <= 1)%nat).
Proof.
  intros Hrel. rewrite <- removelast_nil. unfold parent.
  rewrite (relative_root p Hrel). change (of_string ".") with {| root := ""; parts := [] |}.
  split; [by intros [= ->] | by intros ->].
Qed.

(** *** [resolve_paths] *)


(** X21.  The output path that [resolve_paths] returns depends on the output
    argument and the translate flag only.  Without an output argument
    (or with an empty one) it is [subtitles.srt], or [subtitles_en.srt]
    when translating, under the directory [public] of the project
    root.  An absolute argument is used as it is; a relative one with
    at most one component is placed under [public]; one with more
    components is resolved against the working directory. *)
Theorem resolve_paths_output (files : gset string) (video_arg : string)
    (output_arg : option string) (translate : bool)
    (video_path output_path : Path) :
  resolve_paths files video_arg output_arg translate
  = inr (video_path, output_path) ->
  let public :=
    {| root := root project_root; parts := parts project_root ++ ["public"] |} in
  match output_arg with
  | Some arg =>
      if String.eqb arg "" then
        output_path
        = joinpath public (if translate then "subtitles_en.srt" else "subtitles.srt")
      else if is_absolute (of_string arg) then output_path = of_string arg
      else if bool_decide (List.length (parts (of_string arg)) <= 1)%nat then
        output_path
        = {| root := root public; parts := parts public ++ parts (of_string arg) |}
      else output_path = resolve (of_string arg)
  | None =>
      output_path
      = joinpath public (if translate then "subtitles_en.srt" else "subtitles.srt")
  end.
Proof.
  intros H public. unfold Cli.resolve_paths in H.
  destruct (if negb (is_absolute (of_string video_arg)) then _ else _)
    as [e|v]; [discriminate|].
  injection H as _ <-. rewrite public_parts. fold public.
  assert (Hdefault :
            (if translate
             then joinpath public "subtitles_en.srt"
             else joinpath public "subtitles.srt")
            = joinpath public (if translate then "subtitles_en.srt"
                               else "subtitles.srt"))
    by (by destruct translate).
  destruct output_arg as [arg|]; [|exact Hdefault].
  destruct (String.eqb arg ""); [exact Hdefault|].
  destruct (is_absolute (of_string arg)) eqn:Habs; cbn [negb]; [done|].
  destruct (decide (List.length (parts (of_string arg)) <= 1)%nat) as [Hlen|Hlen].
  - rewrite (bool_decide_eq_true_2 _ Hlen).
    rewrite (bool_decide_eq_true_2 (parent (of_string arg) = of_string "."))
      by (by apply parent_is_dot).
    cbn [negb]. by apply joinpath_relative.
  - rewrite (bool_decide_eq_false_2 _ Hlen).
    rewrite (bool_decide_eq_false_2 (parent (of_string arg) = of_string "."))
      by (by rewrite parent_is_dot).
    done.
Qed.

(** *** [run_cli] *)


Lemma config_keywords_fields (args : Namespace) (k : string) :
  is_Some (config_keywords args !! k) -> k ∈ field_names.
Proof.
  intros [v Hv]. unfold config_keywords in Hv.
  apply elem_of_list_to_map_2 in Hv.
  repeat (apply elem_of_cons in Hv as [[= -> _]|Hv]); [in_fields .. |].
  by apply elem_of_nil in Hv.
Qed.

Lemma new_generator_config st size (c : pyobj) :
  configs (with_new_generator st size c)
  !! config (self (with_new_generator st size c)) = Some c
  /\ Generator.model (self (with_new_generator st size c)) = None
  /\ model_size (self (with_new_generator st size c)) = size
  /\ (forall ref c0, configs st !! ref = Some c0 ->
        configs (with_new_generator st size c) !! ref = Some c0).
Proof.
  unfold with_new_generator. cbn. split; [by rewrite lookup_insert_eq|].
  split; [done|]. split; [done|]. intros ref c0 Href.
  rewrite lookup_insert_ne; [done|]. intros <-.
  pose proof (is_fresh (dom (configs st))) as Hfresh.
  apply Hfresh. apply elem_of_dom. eauto.
Qed.


(** X23.  What a run of the command hands to the engine, when the video is
    on storage and the model loads.  The model that is loaded is the
    one named on the command line, and the engine is run once.  The
    language, the sampling parameters and the thresholds are those of
    the command line; the task is ['translate'] with the translate
    flag and ['transcribe'] without; the initial prompt is the one
    given, and without one it is the Slovak prompt when the language
    is ["sk"] (also when translating) and empty otherwise.  The other
    parameters have the declared defaults. *)
Theorem run_cli_engine_parameters (args : Namespace) st h
    (video_path output_path : Path) :
  resolve_paths (files st) (video args) (output args) (translate args)
  = inr (video_path, output_path) ->
  to_string video_path ∈ files st ->
  whisper_load_model (Cli.model args) = Ok h ->
  exists params trace,
    calls (snd (run_cli args st))
    = (calls st
       ++ LoadModel (Cli.model args)
          :: Transcribe h (to_string video_path) params :: trace)%list /\
    runs trace = 0%nat /\ loads trace = 0%nat /\
    params !! "language" = Some (PyStr (Cli.language args)) /\
    params !! "task"
    = Some (PyStr (if Cli.translate args then "translate" else "transcribe")) /\
    params !! "initial_prompt"
    = Some (PyStr match Cli.initial_prompt args with
                  | Some p => p
                  | None => if String.eqb (Cli.language args) "sk"
                            then slovak_prompt else ""
                  end) /\
    params !! "temperature" = Some (PyFloat (Cli.temperature args)) /\
    params !! "best_of" = Some (PyInt (Cli.best_of args)) /\
    params !! "beam_size" = Some (PyInt (Cli.beam_size args)) /\
    params !! "condition_on_previous_text"
    = Some (PyBool (Cli.condition_on_previous_text args)) /\
    params !! "compression_ratio_threshold"
    = Some (PyFloat (Cli.compression_ratio_threshold args)) /\
    params !! "logprob_threshold" = Some (PyFloat (Cli.logprob_threshold args)) /\
    params !! "no_speech_threshold"
    = Some (PyFloat (Cli.no_speech_threshold args)) /\
    params !! "word_timestamps" = Some (PyBool true) /\
    params !! "patience" = Some (PyFloat (Float64.lit false 1 0)) /\
    params !! "length_penalty" = Some (PyFloat (Float64.lit false 1 0)) /\
    params !! "suppress_tokens" = Some (PyList [PyInt (-1)]) /\
    (forall k, k ∉ exported_names -> k <> "task" -> params !! k = None).
Proof.
  intros Hres Hfile Hload.
  destruct (WhisperConfig_fields (config_keywords args) (config_keywords_fields args))
    as (c & Hc & Hdom & Hval & Hprompt).
  pose proof (fields_has_fields c Hdom) as Hf.
  destruct (to_whisper_params_lookup c Hf) as (exported & prompt & Hexp & Hp & Hk).
  assert (Hlang : is_Some (exported !! "language")).
  { rewrite Hk. cbn. apply (has_fields_lookup c "language" Hf). in_fields. }
  destruct (new_generator_config st (Cli.model args) c) as (Hc0 & Hm0 & Hsize & _).
  assert (Hfiles0 : files (with_new_generator st (Cli.model args) c) = files st)
    by reflexivity.
  assert (Hcalls0 : calls (with_new_generator st (Cli.model args) c) = calls st)
    by reflexivity.
  set (st0 := with_new_generator st (Cli.model args) c) in *.
  set (kw := passed_keywords None (Cli.translate args) ∅).
  assert (Hready : Generator.model (self st0) = Some h
                   \/ (Generator.model (self st0) = None
                       /\ whisper_load_model (model_size (self st0)) = Ok h)).
  { right. split; [exact Hm0 | rewrite Hsize; exact Hload]. }
  assert (Hfile0 : to_string video_path ∈ files st0)
    by (rewrite Hfiles0; exact Hfile).
  pose proof (transcribe_ready_run whisper_load_model model_transcribe st0 h c
                exported (to_string video_path) kw Hready Hfile0 Hc0 Hexp Hlang)
    as Hrun.
  rewrite Hm0, Hsize, Hcalls0 in Hrun.
  exists (dict_merge exported kw).
  assert (Htrace : exists trace,
             calls (snd (run_cli args st))
             = (calls st
                ++ LoadModel (Cli.model args)
                   :: Transcribe h (to_string video_path) (dict_merge exported kw)
                   :: trace)%list
             /\ runs trace = 0%nat /\ loads trace = 0%nat).
  { unfold Cli.run_cli. rewrite Hres, Hc. cbv beta iota zeta delta [Ok].
    fold st0. rewrite generate_run. fold kw. rewrite Hrun.
    destruct (model_transcribe h (to_string video_path) _) as [e|res].
    { exists []. cbn [fst snd calls]. repeat split. }
    destruct (Formatter.format_srt (segments res)) as [e|srt].
    { exists []. cbn [fst snd calls]. repeat split. }
    exists [WriteFile (to_string output_path) srt]. cbv zeta.
    destruct (open_write (to_string output_path) srt) as [e|[]];
      cbn [fst snd calls]; rewrite <- !app_assoc; repeat split. }
  destruct Htrace as (trace & Htrace & Hruns & Hloads).
  clear Hc Hrun Hc0 Hm0 Hsize Hfiles0 Hcalls0 Hready Hfile0. clearbody st0.
  exists trace. split; [exact Htrace|]. split; [exact Hruns|]. split; [exact Hloads|].
  assert (Hkw : forall k, k <> "task" -> kw !! k = None).
  { intros k Hne. unfold kw.
    rewrite passed_keywords_other; [apply lookup_empty | by left | by intros ->]. }
  assert (Hparam : forall k, k <> "task" -> k ∈ exported_names ->
                             k <> "initial_prompt" ->
                             dict_merge exported kw !! k
                             = match config_keywords args !! k with
                               | Some v => Some v
                               | None => (list_to_map field_defaults : pyobj) !! k
                               end).
  { intros k H1 H2 H3. rewrite dict_merge_lookup, Hkw, Hk by done.
    rewrite (bool_decide_eq_true_2 _ H2).
    rewrite (proj2 (String.eqb_neq _ _) H3). by apply Hval. }
  split; [rewrite Hparam by (done || in_fields); reflexivity|].
  split.
  { rewrite dict_merge_lookup. unfold kw.
    destruct (Cli.translate args) eqn:Ht.
    - by rewrite passed_keywords_task.
    - rewrite passed_keywords_other, lookup_empty, Hk; [|done|done].
      cbn. rewrite Hval by done.
      unfold config_keywords. rewrite Ht. reflexivity. }
  split.
  { rewrite dict_merge_lookup, Hkw, Hk by done. cbn.
    rewrite Hprompt in Hp. injection Hp as <-. f_equal.
    replace (config_keywords args !! "language")
      with (Some (PyStr (Cli.language args))) by reflexivity.
    replace (config_keywords args !! "initial_prompt")
      with (Some match Cli.initial_prompt args with
                 | Some p => PyStr p
                 | None => PyNone
                 end) by reflexivity.
    unfold resolved_prompt. cbn [from_option id].
    destruct (Cli.initial_prompt args) as [p|].
    - unfold py_or, truthy. by destruct (String.eqb_spec p "") as [->|].
    - by destruct (String.eqb (Cli.language args) "sk"). }
  do 11 (split; [rewrite Hparam by (done || in_fields); reflexivity|]).
  intros k Hk1 Hk2. rewrite dict_merge_lookup, Hkw, Hk by done.
  by rewrite (bool_decide_eq_false_2 _ Hk1).
Qed.

(** X24.  A video that is not on storage.  A relative argument that is found
    neither under the assets directory nor as given ends the run at
    once, with status 1 and no engine call.  An absolute argument is
    not checked by [resolve_paths]: the run goes on to [generate],
    which loads the model named on the command line before the missing
    file is noticed, and then ends with status 1, without an engine run
    and without a write. *)
Theorem run_cli_missing_video (args : Namespace) st :
  let given := of_string (video args) in
  let assets :=
    joinpath (joinpath (joinpath project_root "public") "assets") (video args) in
  to_string given ∉ files st ->
  (is_absolute given = false -> to_string assets ∉ files st ->
   run_cli args st = (Exited 1, st)) /\
  (is_absolute given = true ->
   fst (run_cli args st) = Exited 1 /\
   calls (snd (run_cli args st))
   = (calls st ++ [LoadModel (Cli.model args)])%list /\
   files (snd (run_cli args st)) = files st).
Proof.
  intros given assets Hgiven. split.
  - intros Hrel Hassets. unfold Cli.run_cli, Cli.resolve_paths, path_exists.
    fold given. fold assets. rewrite Hrel. cbn [negb].
    rewrite (bool_decide_eq_false_2 _ Hassets), (bool_decide_eq_false_2 _ Hgiven).
    reflexivity.
  - intros Habs.
    assert (Hres : exists o, resolve_paths (files st) (video args) (output args)
                               (translate args) = inr (given, o)).
    { unfold Cli.resolve_paths. fold given. rewrite Habs. cbn [negb]. eauto. }
    destruct Hres as (o & Hres).
    destruct (WhisperConfig_fields (config_keywords args) (config_keywords_fields args))
      as (c & Hc & _).
    unfold Cli.run_cli. rewrite Hres, Hc. clear Hc Hres.
    cbv beta iota zeta delta [Ok].
    destruct (new_generator_config st (Cli.model args) c) as (_ & Hm0 & Hsize & _).
    assert (Hfiles0 : files (with_new_generator st (Cli.model args) c) = files st)
      by reflexivity.
    assert (Hcalls0 : calls (with_new_generator st (Cli.model args) c) = calls st)
      by reflexivity.
    set (st0 := with_new_generator st (Cli.model args) c) in *. clearbody st0.
    rewrite generate_run.
    rewrite (transcribe_on_missing_path whisper_load_model model_transcribe st0)
      by (by rewrite Hfiles0).
    rewrite Hm0, Hsize. unfold Generator.after_load. rewrite Hsize, Hcalls0.
    destruct (whisper_load_model (Cli.model args)) as [e|h0];
      cbv beta iota delta [Raise]; cbn [fst snd calls files]; by rewrite Hfiles0.
Qed.
End Cli.

(** *** Instances *)

Import Examples Scenarios.

Lemma clip_resolved :
  resolve_paths cli_file resolve_in_work (files clip_on_storage)
    (video args_clip) (output args_clip) (translate args_clip)
  = inr (of_string "clip.mp4",
         {| root := "/"; parts := ["repo"; "public"; "out.srt"] |}).
Proof. vm_compute. reflexivity. Defined.

(** X21 on [clip.mp4 -o out.srt]: the output goes
    to /repo/public/out.srt. *)
Lemma resolve_paths_output_witness :
  resolve_paths cli_file resolve_in_work (files clip_on_storage)
    "clip.mp4" (Some "out.srt") true
  = inr (of_string "clip.mp4",
         {| root := "/"; parts := ["repo"; "public"; "out.srt"] |}) /\
  let public :=
    {| root := root (project_root cli_file);
       parts := parts (project_root cli_file) ++ ["public"] |} in
  {| root := "/"; parts := ["repo"; "public"; "out.srt"] |}
  = {| root := root public; parts := parts public ++ parts (of_string "out.srt") |}.
Proof.
  split; [exact clip_resolved|].
  exact (resolve_paths_output cli_file resolve_in_work (files clip_on_storage)
           "clip.mp4" (Some "out.srt") true (of_string "clip.mp4")
           {| root := "/"; parts := ["repo"; "public"; "out.srt"] |}
           clip_resolved).
Defined.

Lemma clip_found : to_string (of_string "clip.mp4") ∈ files clip_on_storage.
Proof. apply (bool_decide_unpack _). vm_compute. exact I. Defined.

(** X23 on
    [clip.mp4 -o out.srt --translate --preview]. *)
Lemma run_cli_engine_parameters_witness :
  resolve_paths cli_file resolve_in_work (files clip_on_storage)
    (video args_clip) (output args_clip) (translate args_clip)
  = inr (of_string "clip.mp4",
         {| root := "/"; parts := ["repo"; "public"; "out.srt"] |}) /\
  (to_string (of_string "clip.mp4") ∈ files clip_on_storage) /\
  stub_load (Cli.model args_clip) = Ok tt /\
  exists params trace,
    calls (snd (run_cli cli_file resolve_in_work stub_load stub_run stub_write
                  args_clip clip_on_storage))
    = (calls clip_on_storage
       ++ LoadModel "medium"
          :: Transcribe tt (to_string (of_string "clip.mp4")) params :: trace)%list /\
    runs trace = 0%nat /\ loads trace = 0%nat /\
    params !! "language" = Some (PyStr "sk") /\
    params !! "task" = Some (PyStr "translate") /\
    params !! "initial_prompt" = Some (PyStr slovak_prompt).
Proof.
  split; [exact clip_resolved|]. split; [exact clip_found|].
  split; [reflexivity|].
  destruct (run_cli_engine_parameters cli_file resolve_in_work
              stub_load stub_run stub_write args_clip clip_on_storage tt
              (of_string "clip.mp4")
              {| root := "/"; parts := ["repo"; "public"; "out.srt"] |}
              clip_resolved clip_found eq_refl)
    as (params & trace & H1 & H2 & H3 & H4 & H5 & H6 & _).
  exists params, trace.
  split; [exact H1|]. split; [exact H2|]. split; [exact H3|].
  split; [exact H4|]. split; [exact H5 | exact H6].
Defined.

Lemma nowhere_missing :
  to_string (of_string (video args_nowhere)) ∉ files clip_on_storage.
Proof. apply (bool_decide_unpack _). vm_compute. exact I. Defined.

(** X24 on the absolute path /nowhere/clip.mp4:
    the model is loaded, then the run ends with status 1. *)
Lemma run_cli_missing_video_witness :
  (to_string (of_string (video args_nowhere)) ∉ files clip_on_storage) /\
  is_absolute (of_string (video args_nowhere)) = true /\
  fst (run_cli cli_file resolve_in_work stub_load stub_run stub_write
         args_nowhere clip_on_storage) = Exited 1 /\
  calls (snd (run_cli cli_file resolve_in_work stub_load stub_run stub_write
                args_nowhere clip_on_storage))
  = (calls clip_on_storage ++ [LoadModel (Cli.model args_nowhere)])%list /\
  files (snd (run_cli cli_file resolve_in_work stub_load stub_run stub_write
                args_nowhere clip_on_storage))
  = files clip_on_storage.
Proof.
  split; [exact nowhere_missing|]. split; [reflexivity|].
  exact (proj2 (run_cli_missing_video cli_file resolve_in_work
                  stub_load stub_run stub_write args_nowhere clip_on_storage
                  nowhere_missing) eq_refl).
Defined.
End CliFacts.
